(** * Market-data servers: price batches, exchange rate, fear-greed reading

    A shallow embedding of [quantitative_server.py] and
    [qualitative_server.py].  The two data providers are the only effects of
    the servers; they are taken as oracles:

    - [history symbol] stands for [yf.Ticker(symbol).history(period="1mo")]:
      it raises, or it returns a frame of which only the [Close] column is
      read (oldest first);
    - [coingecko ids] stands for the single batched
      [requests.get(...).json()] call: it raises, or it returns the payload,
      whatever JSON value that is.  What the interpreter does with it ([in],
      subscripting, [.get], [round]) is embedded with the exceptions it
      raises; only the rounding of a Python float is taken as a parameter,
      [round_float].

    Closing prices are [numpy.float64] scalars, embedded as the kernel's
    binary64 floats: arithmetic on them never raises, a division by zero
    gives an infinity or a NaN. *)

From Stdlib Require Import Floats ZArith Lia.
From stdpp Require Import base option list strings gmap.

Local Open Scope string_scope.
Local Open Scope list_scope.
Local Open Scope Z_scope.

(** ** Exceptions *)

(** A Python computation either returns or raises; [msg] is [str(e)]. *)
Inductive exc (A : Type) : Type :=
  | Return (a : A)
  | Raise (msg : string).
Arguments Return {A} a.
Arguments Raise {A} msg.

#[export] Instance exc_ret : MRet exc := fun A a => Return a.
#[export] Instance exc_bind : MBind exc := fun A B k m =>
  match m with
  | Return a => k a
  | Raise msg => Raise msg
  end.

(** ** numpy scalars *)

Module Np.

Definition two52 : float := 4503599627370496%float.

(** [numpy.rint]: round to the nearest integer, ties to even.  Below 2^52
    adding and subtracting 2^52 rounds in the unit place; from 2^52 on (and
    for zeros, infinities and NaN) the value is its own rounding. *)
Definition rint (x : float) : float :=
  if (PrimFloat.ltb (PrimFloat.abs x) two52 && negb (PrimFloat.eqb x 0))%bool
  then
    if PrimFloat.ltb x 0
    then PrimFloat.opp ((PrimFloat.opp x + two52) - two52)%float
    else ((x + two52) - two52)%float
  else x.

(** [round(x, 2)] on a [numpy.float64]: multiply by [10**2], [rint],
    divide by [10**2]. *)
Definition round2 (x : float) : float := (rint (x * 100) / 100)%float.

End Np.

(** ** pandas positional indexing *)

Definition index_error : string := "single positional indexer is out-of-bounds".

(** [s.iloc[i]]: a negative [i] counts from the end; out of range raises. *)
Definition iloc {A : Type} (s : list A) (i : Z) : exc A :=
  let n := Z.of_nat (length s) in
  let pos := if i <? 0 then n + i else i in
  if (0 <=? pos) && (pos <? n)
  then match s !! Z.to_nat pos with
       | Some x => Return x
       | None => Raise index_error
       end
  else Raise index_error.

(** ** Values, records and responses *)

(** JSON numbers as Python has them. *)
Inductive num : Type :=
  | NInt (n : Z)
  | NFloat (x : float).

(** Python values as the servers meet them: what they put in a record and
    what a JSON answer can hold. *)
#[warnings="-register-all"]
Inductive pyval : Type :=
  | PStr (s : string)
  | PNum (n : num)
  | PNone
  | PBool (b : bool)
  | PList (l : list pyval)
  | PDict (d : gmap string pyval).

(** A dict literal, keys in the order they are written. *)
Abbreviation record := (list (string * pyval)).

(** What a top-level key of a tool's answer holds. *)
Inductive top : Type :=
  | TRecords (l : list record)
  | TStr (s : string).

Abbreviation response := (list (string * top)).

Definition keys {V : Type} (d : list (string * V)) : list string := d.*1.

Fixpoint get {V : Type} (k : string) (d : list (string * V)) : option V :=
  match d with
  | [] => None
  | (k', v) :: d' => if String.eqb k k' then Some v else get k d'
  end.

(** ** What the interpreter does with a value *)

(** [type(v).__name__] *)
Definition type_name (v : pyval) : string :=
  match v with
  | PStr _ => "str"
  | PNum (NInt _) => "int"
  | PNum (NFloat _) => "float"
  | PNone => "NoneType"
  | PBool _ => "bool"
  | PList _ => "list"
  | PDict _ => "dict"
  end.

(** [str(KeyError(k))] *)
Definition key_error (k : string) : string := String.append "'" (String.append k "'").

(** [d[k]] on a dict: a missing key raises. *)
Definition getitem {V : Type} (d : gmap string V) (k : string) : exc V :=
  match d !! k with
  | Some v => Return v
  | None => Raise (key_error k)
  end.

(** [x in s] on two strings: [x] is a substring of [s]. *)
Fixpoint substring_of (x s : string) : bool :=
  String.prefix x s ||
  match s with
  | EmptyString => false
  | String _ s' => substring_of x s'
  end.

(** [k in data] for a string [k]: a key of a dict, an element of a list, a
    substring of a string; anything else is not iterable. *)
Definition contains_key (data : pyval) (k : string) : exc bool :=
  match data with
  | PDict d => Return (match d !! k with Some _ => true | None => false end)
  | PList l =>
      Return (existsb (fun v => match v with PStr s => String.eqb s k | _ => false end) l)
  | PStr s => Return (substring_of k s)
  | _ =>
      Raise (String.append "argument of type '"
               (String.append (type_name data) "' is not iterable"))
  end.

(** [data[k]] for a string [k]. *)
Definition subscript (data : pyval) (k : string) : exc pyval :=
  match data with
  | PDict d => getitem d k
  | PList _ => Raise "list indices must be integers or slices, not str"
  | PStr _ => Raise "string indices must be integers, not 'str'"
  | _ =>
      Raise (String.append "'"
               (String.append (type_name data) "' object is not subscriptable"))
  end.

(** [d.get(k, dflt)]: only a dict has the method. *)
Definition dict_get (d : pyval) (k : string) (dflt : pyval) : exc pyval :=
  match d with
  | PDict m => Return (default dflt (m !! k))
  | _ =>
      Raise (String.append "'"
               (String.append (type_name d) "' object has no attribute 'get'"))
  end.

(** The builtin [round(v, 2)]: an [int] is returned as it is and a [bool] as
    the [int] it is; a [float] goes through the interpreter's own rounding,
    [round_float], which the servers take as given; no other value can be
    rounded. *)
Definition py_round (round_float : float -> float) (v : pyval) : exc pyval :=
  match v with
  | PNum (NInt n) => Return (PNum (NInt n))
  | PNum (NFloat x) => Return (PNum (NFloat (round_float x)))
  | PBool b => Return (PNum (NInt (if b then 1 else 0)))
  | _ =>
      Raise (String.append "type "
               (String.append (type_name v) " doesn't define __round__ method"))
  end.

(** A [for] loop whose body may raise: the first exception ends it. *)
Fixpoint for_each {A B : Type} (turn : B -> A -> exc B) (l : list A) (acc : B) : exc B :=
  match l with
  | [] => Return acc
  | x :: l' => acc' ← turn acc x; for_each turn l' acc'
  end.

(** ** Configuration *)

Record instrument : Type := Instrument { symbol : string; name : string }.

(** [portfolio.yaml] once loaded: asset class to instruments. *)
Abbreviation portfolio := (gmap string (list instrument)).

(** [portfolio.get(key, [])] *)
Definition configured (p : portfolio) (key : string) : list instrument :=
  default [] (p !! key).

(** ** The four reference lines

    The same four lines open the success path of [get_stock_prices],
    [get_bond_prices], [get_gold_prices] and [get_exchange_rate]; [hist] is
    the [Close] column. *)

(** [current = hist["Close"].iloc[-1]] *)
Definition current (hist : list float) : exc float := iloc hist (-1).

(** [prev_day = hist["Close"].iloc[-2] if len(hist) > 1 else current] *)
Definition prev_day (hist : list float) (cur : float) : exc float :=
  if 1 <? Z.of_nat (length hist) then iloc hist (-2) else Return cur.

(** [week_ago = hist["Close"].iloc[-5] if len(hist) >= 5 else hist["Close"].iloc[0]] *)
Definition week_ago (hist : list float) : exc float :=
  if 5 <=? Z.of_nat (length hist) then iloc hist (-5) else iloc hist 0.

(** [month_ago = hist["Close"].iloc[0]] *)
Definition month_ago (hist : list float) : exc float := iloc hist 0.

(** [hist.empty] *)
Definition empty (hist : list float) : bool :=
  match hist with [] => true | _ => false end.

Definition no_data : string := "데이터 없음".

(** ** quantitative_server.py *)

(** The provider behind [yf.Ticker(symbol).history(period="1mo")]. *)
Abbreviation history_provider := (string -> exc (list float)).

(** One turn of [for stock in portfolio.get("stocks", [])]: the [try] block
    either appends and falls through (or [continue]s), or raises and the
    handler appends. *)
Definition stock_turn (history : history_provider)
    (results : list record) (stock : instrument) : list record :=
  let sym := stock.(symbol) in
  let attempt : exc (list record) :=
    hist ← history sym;
    if empty hist
    then Return (results ++ [[("symbol", PStr sym); ("error", PStr no_data)]])
    else
      cur ← current hist;
      prev ← prev_day hist cur;
      week ← week_ago hist;
      month ← month_ago hist;
      Return (results ++
        [[("symbol", PStr sym);
          ("name", PStr stock.(name));
          ("price", PNum (NFloat (Np.round2 cur)));
          ("change_1d_pct", PNum (NFloat (Np.round2 ((cur - prev) / prev * 100)%float)));
          ("change_1w_pct", PNum (NFloat (Np.round2 ((cur - week) / week * 100)%float)));
          ("change_1m_pct", PNum (NFloat (Np.round2 ((cur - month) / month * 100)%float)))]])
  in
  match attempt with
  | Return results' => results'
  | Raise e => results ++ [[("symbol", PStr sym); ("error", PStr e)]]
  end.

Definition get_stock_prices (p : portfolio) (history : history_provider) : response :=
  let results := fold_left (stock_turn history) (configured p "stocks") [] in
  [("stocks", TRecords results)].

(** One turn of [for bond in portfolio.get("bonds", [])]. *)
Definition bond_turn (history : history_provider)
    (results : list record) (bond : instrument) : list record :=
  let sym := bond.(symbol) in
  let attempt : exc (list record) :=
    hist ← history sym;
    if empty hist
    then Return (results ++ [[("symbol", PStr sym); ("error", PStr no_data)]])
    else
      cur ← current hist;
      prev ← prev_day hist cur;
      week ← week_ago hist;
      month ← month_ago hist;
      Return (results ++
        [[("symbol", PStr sym);
          ("name", PStr bond.(name));
          ("price", PNum (NFloat (Np.round2 cur)));
          ("change_1d_pct", PNum (NFloat (Np.round2 ((cur - prev) / prev * 100)%float)));
          ("change_1w_pct", PNum (NFloat (Np.round2 ((cur - week) / week * 100)%float)));
          ("change_1m_pct", PNum (NFloat (Np.round2 ((cur - month) / month * 100)%float)))]])
  in
  match attempt with
  | Return results' => results'
  | Raise e => results ++ [[("symbol", PStr sym); ("error", PStr e)]]
  end.

Definition get_bond_prices (p : portfolio) (history : history_provider) : response :=
  let results := fold_left (bond_turn history) (configured p "bonds") [] in
  [("bonds", TRecords results)].

(** One turn of [for gold in portfolio.get("gold", [])]. *)
Definition gold_turn (history : history_provider)
    (results : list record) (gold : instrument) : list record :=
  let sym := gold.(symbol) in
  let attempt : exc (list record) :=
    hist ← history sym;
    if empty hist
    then Return (results ++ [[("symbol", PStr sym); ("error", PStr no_data)]])
    else
      cur ← current hist;
      prev ← prev_day hist cur;
      week ← week_ago hist;
      month ← month_ago hist;
      Return (results ++
        [[("symbol", PStr sym);
          ("name", PStr gold.(name));
          ("price", PNum (NFloat (Np.round2 cur)));
          ("change_1d_pct", PNum (NFloat (Np.round2 ((cur - prev) / prev * 100)%float)));
          ("change_1w_pct", PNum (NFloat (Np.round2 ((cur - week) / week * 100)%float)));
          ("change_1m_pct", PNum (NFloat (Np.round2 ((cur - month) / month * 100)%float)))]])
  in
  match attempt with
  | Return results' => results'
  | Raise e => results ++ [[("symbol", PStr sym); ("error", PStr e)]]
  end.

Definition get_gold_prices (p : portfolio) (history : history_provider) : response :=
  let results := fold_left (gold_turn history) (configured p "gold") [] in
  [("gold", TRecords results)].

(** *** Crypto: one batched request *)

(** The CoinGecko payload: the JSON value the request returns. *)
Abbreviation payload := pyval.

(** The provider behind [requests.get(url, params, timeout=10).json()],
    given the requested ids. *)
Abbreviation coingecko_provider := (list string -> exc payload).

(** One turn of [for crypto in portfolio.get("crypto", [])].  The loop sits
    inside the [try] of the request: whatever raises while a record is
    built leaves the loop. *)
Definition crypto_turn (round_float : float -> float) (data : payload)
    (results : list record) (crypto : instrument) : exc (list record) :=
  let coin_id := crypto.(symbol) in
  present ← contains_key data coin_id;
  if present : bool
  then
    coin_data ← subscript data coin_id;
    price ← dict_get coin_data "usd" (PNum (NInt 0));
    usd_24h_change ← dict_get coin_data "usd_24h_change" (PNum (NInt 0));
    change_24h_pct ← py_round round_float usd_24h_change;
    usd_7d_change ← dict_get coin_data "usd_7d_change" (PNum (NInt 0));
    change_7d_pct ← py_round round_float usd_7d_change;
    Return (results ++
      [[("symbol", PStr coin_id);
        ("name", PStr crypto.(name));
        ("price", price);
        ("change_24h_pct", change_24h_pct);
        ("change_7d_pct", change_7d_pct)]])
  else
    Return (results ++ [[("symbol", PStr coin_id); ("error", PStr no_data)]]).

Definition get_crypto_prices (round_float : float -> float)
    (p : portfolio) (coingecko : coingecko_provider) : response :=
  let crypto_ids := symbol <$> configured p "crypto" in
  match crypto_ids with
  | [] => [("crypto", TRecords [])]
  | _ =>
      let attempt : exc response :=
        data ← coingecko crypto_ids;
        results ← for_each (crypto_turn round_float data) (configured p "crypto") [];
        Return [("crypto", TRecords results)]
      in
      match attempt with
      | Return r => r
      | Raise e => [("crypto", TRecords []); ("error", TStr e)]
      end
  end.

(** ** qualitative_server.py *)

Definition fx_no_data : string := "환율 데이터 없음".

Definition get_exchange_rate (history : history_provider) : record :=
  let attempt : exc record :=
    hist ← history "USDKRW=X";
    if empty hist
    then Return [("error", PStr fx_no_data)]
    else
      cur ← current hist;
      prev ← prev_day hist cur;
      week ← week_ago hist;
      month ← month_ago hist;
      Return
        [("pair", PStr "USD/KRW");
         ("rate", PNum (NFloat (Np.round2 cur)));
         ("change_1d_pct", PNum (NFloat (Np.round2 ((cur - prev) / prev * 100)%float)));
         ("change_1w_pct", PNum (NFloat (Np.round2 ((cur - week) / week * 100)%float)));
         ("change_1m_pct", PNum (NFloat (Np.round2 ((cur - month) / month * 100)%float)))]
  in
  match attempt with
  | Return r => r
  | Raise e => [("error", PStr e)]
  end.

Definition extreme_fear : string := "극단적 공포 - 매수 기회일 수 있음".
Definition fear : string := "공포 - 시장 불안정".
Definition neutral : string := "중립 - 균형 잡힌 상태".
Definition greed : string := "탐욕 - 주의 필요".
Definition extreme_greed : string := "극단적 탐욕 - 과열 상태, 조정 가능성".

(** [score] is always the [int(...)] of the provider's reading. *)
Definition _interpret_fear_greed (score : Z) : string :=
  if score <=? 25 then extreme_fear
  else if score <=? 45 then fear
  else if score <=? 55 then neutral
  else if score <=? 75 then greed
  else extreme_greed.

(** ** Vocabulary of the statements *)

(** [round((current - reference) / reference * 100, 2)], the expression every
    change field is computed by. *)
Definition change_pct (cur ref : float) : float :=
  Np.round2 ((cur - ref) / ref * 100)%float.

Definition error_record (sym msg : string) : record :=
  [("symbol", PStr sym); ("error", PStr msg)].

Definition populated_record (i : instrument) (cur prev week month : float) : record :=
  [("symbol", PStr i.(symbol));
   ("name", PStr i.(name));
   ("price", PNum (NFloat (Np.round2 cur)));
   ("change_1d_pct", PNum (NFloat (change_pct cur prev)));
   ("change_1w_pct", PNum (NFloat (change_pct cur week)));
   ("change_1m_pct", PNum (NFloat (change_pct cur month)))].

Definition fx_record (cur prev week month : float) : record :=
  [("pair", PStr "USD/KRW");
   ("rate", PNum (NFloat (Np.round2 cur)));
   ("change_1d_pct", PNum (NFloat (change_pct cur prev)));
   ("change_1w_pct", PNum (NFloat (change_pct cur week)));
   ("change_1m_pct", PNum (NFloat (change_pct cur month)))].

Definition error_keys : list string := ["symbol"; "error"].
Definition populated_keys : list string :=
  ["symbol"; "name"; "price"; "change_1d_pct"; "change_1w_pct"; "change_1m_pct"].
Definition crypto_keys : list string :=
  ["symbol"; "name"; "price"; "change_24h_pct"; "change_7d_pct"].

(** The shapes of a batch element. *)
Definition is_error (r : record) : Prop :=
  exists sym msg, r = error_record sym msg.

Definition is_populated (r : record) : Prop :=
  exists (sym nm : string) (price d w m : float),
    r = [("symbol", PStr sym);
         ("name", PStr nm);
         ("price", PNum (NFloat price));
         ("change_1d_pct", PNum (NFloat d));
         ("change_1w_pct", PNum (NFloat w));
         ("change_1m_pct", PNum (NFloat m))].

(** The price of a coin is whatever the payload holds under [usd]; the
    two changes have gone through [round] and are numbers. *)
Definition is_crypto_populated (r : record) : Prop :=
  exists (sym nm : string) (price : pyval) (d24 d7 : num),
    r = [("symbol", PStr sym);
         ("name", PStr nm);
         ("price", price);
         ("change_24h_pct", PNum d24);
         ("change_7d_pct", PNum d7)].

(** The list a batch answer holds under its asset-class key. *)
Definition records (key : string) (resp : response) : list record :=
  match get key resp with
  | Some (TRecords l) => l
  | _ => []
  end.

(** The [symbol] field of every record, in order. *)
Definition symbols (rs : list record) : list (option pyval) := get "symbol" <$> rs.

(** The float a record holds under [key], if it holds one. *)
Definition float_field (key : string) (r : record) : option float :=
  match get key r with
  | Some (PNum (NFloat x)) => Some x
  | _ => None
  end.

(** The three batch operations served by the price-history provider, each
    with the key it reads and writes. *)
Inductive yf_batch : string -> (portfolio -> history_provider -> response) -> Prop :=
  | yf_stocks : yf_batch "stocks" get_stock_prices
  | yf_bonds : yf_batch "bonds" get_bond_prices
  | yf_gold : yf_batch "gold" get_gold_prices.

(** What one instrument contributes to a batch: the three ways out of the
    loop body. *)
Inductive normalized (history : history_provider) (i : instrument) : record -> Prop :=
  | normalized_raised e :
      history i.(symbol) = Raise e ->
      normalized history i (error_record i.(symbol) e)
  | normalized_empty :
      history i.(symbol) = Return [] ->
      normalized history i (error_record i.(symbol) no_data)
  | normalized_populated hist cur prev week month :
      history i.(symbol) = Return hist ->
      hist <> [] ->
      current hist = Return cur ->
      prev_day hist cur = Return prev ->
      week_ago hist = Return week ->
      month_ago hist = Return month ->
      normalized history i (populated_record i cur prev week month).

(** What one configured coin contributes when its turn does not raise: the
    two ways through the loop body. *)
Inductive coin_built (round_float : float -> float) (data : payload) (c : instrument) :
    record -> Prop :=
  | coin_absent :
      contains_key data c.(symbol) = Return false ->
      coin_built round_float data c (error_record c.(symbol) no_data)
  | coin_present coin_data price v24 c24 v7 c7 :
      contains_key data c.(symbol) = Return true ->
      subscript data c.(symbol) = Return coin_data ->
      dict_get coin_data "usd" (PNum (NInt 0)) = Return price ->
      dict_get coin_data "usd_24h_change" (PNum (NInt 0)) = Return v24 ->
      py_round round_float v24 = Return c24 ->
      dict_get coin_data "usd_7d_change" (PNum (NInt 0)) = Return v7 ->
      py_round round_float v7 = Return c7 ->
      coin_built round_float data c
        [("symbol", PStr c.(symbol));
         ("name", PStr c.(name));
         ("price", price);
         ("change_24h_pct", c24);
         ("change_7d_pct", c7)].

(** What [round(v, 2)] accepts. *)
Definition roundable (v : pyval) : bool :=
  match v with
  | PNum _ | PBool _ => true
  | _ => false
  end.

(** An entry of the payload from which a record can be built: a dict whose
    two change fields are missing or can be rounded. *)
Definition entry_ok (coin_data : pyval) : bool :=
  match coin_data with
  | PDict m =>
      roundable (default (PNum (NInt 0)) (m !! "usd_24h_change"))
      && roundable (default (PNum (NInt 0)) (m !! "usd_7d_change"))
  | _ => false
  end.

(** Every configured coin that the payload has comes with such an entry. *)
Definition coins_ok (d : gmap string pyval) (config : list instrument) : bool :=
  forallb (fun c => match d !! c.(symbol) with
                    | Some coin_data => entry_ok coin_data
                    | None => true
                    end) config.

(** The operations answer a fetched [hist] from these four references: the
    price-history batches with the populated record of the instrument, the
    exchange-rate tool with its rate record. *)
Definition served (history : history_provider) (hist : list float)
    (cur prev week month : float) : Prop :=
  (forall key op, yf_batch key op ->
     forall (p : portfolio) (k : nat) (i : instrument),
       configured p key !! k = Some i ->
       history i.(symbol) = Return hist ->
       records key (op p history) !! k = Some (populated_record i cur prev week month))
  /\ (history "USDKRW=X" = Return hist ->
      get_exchange_rate history = fx_record cur prev week month).

(** ** The policy as the specification words it *)

Module Spec.

(** "the element 5 positions before the last if at least 5 elements exist,
    else the first element of the series" *)
Definition week_reference {A : Type} (series : list A) : option A :=
  let last := Z.of_nat (length series) - 1 in
  if 5 <=? Z.of_nat (length series)
  then (if 0 <=? last - 5 then series !! Z.to_nat (last - 5) else None)
  else head series.

End Spec.

(** ** A small market to run the servers on *)

Module Demo.

Definition six : list float := [90; 91; 92; 93; 94; 95]%float.

Definition book : portfolio :=
  {[ "stocks" := [Instrument "SIX" "Six closes"];
     "bonds" := [Instrument "SIX" "Six closes"];
     "gold" := [Instrument "SIX" "Six closes"];
     "crypto" := [Instrument "bitcoin" "Bitcoin"; Instrument "ethereum" "Ethereum";
                  Instrument "solana" "Solana"] ]}.

Definition zero_book : portfolio :=
  {[ "stocks" := [Instrument "FLAT" "One zero close"; Instrument "UP" "Zero then one"] ]}.

Definition market : history_provider := fun sym =>
  if String.eqb sym "SIX" then Return six
  else if String.eqb sym "USDKRW=X" then Return six
  else if String.eqb sym "FLAT" then Return [0]%float
  else if String.eqb sym "UP" then Return [0; 1]%float
  else Raise "No data found, symbol may be delisted".

Definition bitcoin : gmap string pyval :=
  {[ "usd" := PNum (NInt 50000); "usd_24h_change" := PNum (NFloat 2) ]}.
Definition ethereum : gmap string pyval :=
  {[ "usd_24h_change" := PNum (NFloat 1) ]}.

(** ethereum comes without a price, solana does not come at all. *)
Definition coin_table : gmap string pyval :=
  {[ "bitcoin" := PDict bitcoin; "ethereum" := PDict ethereum ]}.
Definition coins : payload := PDict coin_table.

Definition coingecko_up : coingecko_provider := fun _ => Return coins.
Definition coingecko_down : coingecko_provider := fun _ => Raise "Connection timed out".

(** A stand-in for the interpreter's rounding of a float; on the changes of
    [coins], 1.0 and 2.0, it gives what Python gives. *)
Definition round_float : float -> float := Np.round2.

End Demo.

(** *** The fear-greed index *)

(** One reading of the index: field to value. *)
Abbreviation reading := (gmap string pyval).

(** The answer of alternative.me as far as it is read: key to readings,
    newest first. *)
Abbreviation fng_payload := (gmap string (list reading)).

Definition list_index_error : string := "list index out of range".

(** [l[i]] on a list, [i] not negative: past the end raises. *)
Definition getindex {A : Type} (l : list A) (i : nat) : exc A :=
  match l !! i with
  | Some x => Return x
  | None => Raise list_index_error
  end.

(** The builtin [int(v)]: an [int] is returned as it is; any other value
    goes through the interpreter's conversion, [convert], which may raise and
    which the servers take as given. *)
Definition py_int (convert : pyval -> exc Z) (v : pyval) : exc Z :=
  match v with
  | PNum (NInt n) => Return n
  | _ => convert v
  end.

(** [alternative_me] stands for [requests.get(url, timeout=10).json()]. *)
Definition get_fear_greed_index (convert : pyval -> exc Z)
    (alternative_me : exc fng_payload) : record :=
  let attempt : exc record :=
    data ← alternative_me;
    let fng_data := default [] (data !! "data") in
    match fng_data with
    | [] => Return [("error", PStr no_data)]
    | _ =>
        today ← getindex fng_data 0;
        score ← py_int convert (default (PNum (NInt 0)) (today !! "value"));
        let rating := default (PStr "unknown") (today !! "value_classification") in
        yesterday ←
          (if 1 <? Z.of_nat (length fng_data)
           then r ← getindex fng_data 1; v ← getitem r "value"; py_int convert v
           else Return score);
        week ←
          (if 6 <? Z.of_nat (length fng_data)
           then r ← getindex fng_data 6; v ← getitem r "value"; py_int convert v
           else Return score);
        Return
          [("score", PNum (NInt score));
           ("rating", rating);
           ("yesterday", PNum (NInt yesterday));
           ("one_week_ago", PNum (NInt week));
           ("interpretation", PStr (_interpret_fear_greed score))]
    end
  in
  match attempt with
  | Return r => r
  | Raise e => [("error", PStr e)]
  end.

(** The snapshot a successful reading of the index answers with. *)
Definition snapshot (score : Z) (rating : pyval) (yesterday week : Z) : record :=
  [("score", PNum (NInt score));
   ("rating", rating);
   ("yesterday", PNum (NInt yesterday));
   ("one_week_ago", PNum (NInt week));
   ("interpretation", PStr (_interpret_fear_greed score))].

(** The value of an earlier reading if there is one, else [fallback]. *)
Definition value_or (convert : pyval -> exc Z) (fallback : Z) (o : option reading) : exc Z :=
  match o with
  | Some r => v ← getitem r "value"; py_int convert v
  | None => Return fallback
  end.

(** ** agent_client.py *)

(** The fixed text of the system prompt up to the list of stocks. *)
Definition prompt_opening : string :=
"당신은 데이터 기반 포트폴리오 투자 비율을 결정하는 투자 어드바이저입니다.

## 투자 유니버스
- 주식 (위험자산): ".

(** The fixed text between the stocks and the coins. *)
Definition prompt_before_crypto : string :=
"
- 암호화폐 (고위험자산): ".

(** The fixed text between the coins and the bonds. *)
Definition prompt_before_bonds : string :=
"
- 채권 (안전자산): ".

(** The fixed text between the bonds and the gold funds. *)
Definition prompt_before_gold : string :=
"
- 금 (안전자산/인플레이션 헷지): ".

(** The fixed text after the gold funds: process, guideline table, answer format, rules. *)
Definition prompt_rest : string :=
"

## 분석 프로세스
사용자가 투자 비율을 요청하면 반드시 다음 순서로 진행하세요:

### 1단계: 데이터 수집
- `get_all_prices`: 모든 자산의 가격/수익률 조회
- `get_market_summary`: 환율, 공포탐욕지수 조회

### 2단계: 시장 상황 판단
수집된 데이터를 기반으로 현재 시장 국면을 판단하세요:
- **Risk-On (위험선호)**: 공포탐욕지수 50 이상, 주식 상승세 → 주식/암호화폐 비중 확대
- **Risk-Off (위험회피)**: 공포탐욕지수 50 미만, 변동성 확대 → 채권/금 비중 확대
- **인플레이션 우려**: 금 가격 상승세 → 금 비중 확대
- **달러 강세**: 환율 상승 → 해외자산 신중, 원화자산 고려

### 3단계: 비율 결정 가이드라인
| 시장 국면 | 주식 | 암호화폐 | 채권 | 금 |
|-----------|------|----------|------|-----|
| 강한 Risk-On | 50-60% | 15-20% | 15-20% | 5-10% |
| 약한 Risk-On | 40-50% | 10-15% | 25-30% | 10-15% |
| 중립 | 35-40% | 5-10% | 35-40% | 15-20% |
| 약한 Risk-Off | 25-35% | 0-5% | 40-50% | 20-25% |
| 강한 Risk-Off | 15-25% | 0% | 45-55% | 25-30% |

## 응답 형식
```
## 시장 현황 요약
(수집된 데이터 요약)

## 시장 국면 판단
(현재 시장 국면과 근거)

## 추천 투자 비율
| 자산군 | 비율 | 사유 |
|--------|------|------|
| 주식 | X% | ... |
| 암호화폐 | Y% | ... |
| 채권 | Z% | ... |
| 금 | W% | ... |
| **합계** | **100%** | |

## 주의사항
(현재 시장의 주요 리스크 요인)
```

## 중요 규칙
1. 반드시 도구를 호출하여 실시간 데이터를 수집한 후 분석하세요.
2. 비율의 합은 반드시 100%여야 합니다.
3. 한국어로 응답하세요.
4. 이 조언은 참고용이며, 실제 투자 결정은 사용자의 판단과 책임입니다.
".

(** [f"{s['symbol']} ({s['name']})"] *)
Definition entry (s : instrument) : string :=
  String.append s.(symbol) (String.append " (" (String.append s.(name) ")")).

Definition build_system_prompt (p : portfolio) : string :=
  let stocks := entry <$> configured p "stocks" in
  let crypto := entry <$> configured p "crypto" in
  let bonds := entry <$> configured p "bonds" in
  let gold := entry <$> configured p "gold" in
  String.append prompt_opening
    (String.append (String.concat ", " stocks)
      (String.append prompt_before_crypto
        (String.append (String.concat ", " crypto)
          (String.append prompt_before_bonds
            (String.append (String.concat ", " bonds)
              (String.append prompt_before_gold
                (String.append (String.concat ", " gold) prompt_rest))))))).

(** [x] occurs in [s]. *)
Definition occurs (x s : string) : Prop :=
  exists before after, s = String.append before (String.append x after).

(** ** More of the market *)

Module Sample.

(** Answers for FLAT as [Demo.market] does, and for nothing else. *)
Definition thin_market : history_provider := fun sym =>
  if String.eqb sym "FLAT" then Return [0]%float
  else Raise "HTTP Error 404".

Definition book : portfolio :=
  {[ "stocks" := [Instrument "SIX" "Six closes"; Instrument "GONE" "Delisted"];
     "bonds" := [Instrument "SIX" "Six closes"];
     "gold" := [Instrument "GONE" "Delisted"] ]}.

Definition gone_book : portfolio :=
  {[ "stocks" := [Instrument "GONE" "Delisted"] ]}.

(** bitcoin as in [Demo.coins], and no other coin. *)
Definition only_bitcoin : gmap string pyval := {[ "bitcoin" := PDict Demo.bitcoin ]}.

(** ethereum without a price and with a null 24h change. *)
Definition null_ethereum : gmap string pyval := {[ "usd_24h_change" := PNone ]}.

(** bitcoin as in [Demo.coins], beside that ethereum. *)
Definition null_change : gmap string pyval :=
  {[ "bitcoin" := PDict Demo.bitcoin; "ethereum" := PDict null_ethereum ]}.

Definition coingecko_null : coingecko_provider := fun _ => Return (PDict null_change).

(** The conversion of the strings the samples are published with; of the
    interpreter's conversion only this much is needed here. *)
Definition convert : pyval -> exc Z := fun v =>
  match v with
  | PStr "25" => Return 25
  | PStr "30" => Return 30
  | PStr "72" => Return 72
  | PStr s =>
      Raise (String.append "invalid literal for int() with base 10: '" (String.append s "'"))
  | _ =>
      Raise (String.append
               "int() argument must be a string, a bytes-like object or a real number, not '"
               (String.append (type_name v) "'"))
  end.

Definition today : reading :=
  {[ "value" := PStr "25"; "value_classification" := PStr "Extreme Fear" ]}.
Definition day_before : reading :=
  {[ "value" := PStr "30"; "value_classification" := PStr "Fear" ]}.
Definition unvalued : reading :=
  {[ "value_classification" := PStr "Fear" ]}.

Definition two_readings : fng_payload := {[ "data" := [today; day_before] ]}.
Definition second_unvalued : fng_payload := {[ "data" := [today; unvalued] ]}.
Definition first_unvalued : fng_payload := {[ "data" := [unvalued] ]}.

End Sample.

(** * Properties *)

(** ** Positional indexing and the four references *)

Lemma iloc_from_end {A : Type} (s : list A) (k : nat) (x : A) :
  (0 < k <= length s)%nat ->
  s !! (length s - k)%nat = Some x ->
  iloc s (- Z.of_nat k) = Return x.
Proof.
  intros [Hk Hle] Hx. unfold iloc.
  assert (Hneg : (- Z.of_nat k <? 0) = true) by (apply Z.ltb_lt; lia).
  rewrite Hneg.
  assert (Hin : (0 <=? Z.of_nat (length s) + - Z.of_nat k)
                && (Z.of_nat (length s) + - Z.of_nat k <? Z.of_nat (length s)) = true).
  { apply andb_true_iff. split; [apply Z.leb_le | apply Z.ltb_lt]; lia. }
  rewrite Hin.
  replace (Z.to_nat (Z.of_nat (length s) + - Z.of_nat k)) with (length s - k)%nat by lia.
  now rewrite Hx.
Qed.

Lemma iloc_first {A : Type} (x : A) (s : list A) : iloc (x :: s) 0 = Return x.
Proof.
  unfold iloc. cbn [length]. rewrite Nat2Z.inj_succ.
  change (0 <? 0) with false. cbn iota.
  assert (Hin : (0 <=? 0) && (0 <? Z.succ (Z.of_nat (length s))) = true).
  { apply andb_true_iff. split; [apply Z.leb_le | apply Z.ltb_lt]; lia. }
  now rewrite Hin.
Qed.

Lemma lookup_from_end {A : Type} (s : list A) (k : nat) :
  (0 < k <= length s)%nat -> exists x, s !! (length s - k)%nat = Some x.
Proof.
  intros Hk. apply lookup_lt_is_Some_2. lia.
Qed.

Lemma current_returns (hist : list float) :
  hist <> [] -> exists cur, last hist = Some cur /\ current hist = Return cur.
Proof.
  intros Hne.
  destruct (lookup_from_end hist 1) as [cur Hcur].
  { destruct hist; [congruence | cbn; lia]. }
  exists cur. split.
  - rewrite last_lookup. now replace (Nat.pred (length hist)) with (length hist - 1)%nat by lia.
  - apply (iloc_from_end hist 1); [destruct hist; [congruence | cbn; lia] | exact Hcur].
Qed.

Lemma prev_day_returns (hist : list float) (cur : float) :
  hist <> [] ->
  exists prev, prev_day hist cur = Return prev
    /\ ((1 < length hist)%nat -> hist !! (length hist - 2)%nat = Some prev)
    /\ ((length hist <= 1)%nat -> prev = cur).
Proof.
  intros Hne. unfold prev_day.
  destruct (1 <? Z.of_nat (length hist)) eqn:Hlen.
  - apply Z.ltb_lt in Hlen.
    destruct (lookup_from_end hist 2) as [prev Hprev]; [lia |].
    exists prev. split; [| split].
    + apply (iloc_from_end hist 2); [lia | exact Hprev].
    + intros _. exact Hprev.
    + intros Hle. lia.
  - apply Z.ltb_ge in Hlen. exists cur. split; [reflexivity | split].
    + intros Hlt. lia.
    + reflexivity.
Qed.

Lemma week_ago_returns (hist : list float) :
  hist <> [] ->
  exists week, week_ago hist = Return week
    /\ ((5 <= length hist)%nat -> hist !! (length hist - 5)%nat = Some week)
    /\ ((length hist < 5)%nat -> head hist = Some week).
Proof.
  intros Hne. unfold week_ago.
  destruct (5 <=? Z.of_nat (length hist)) eqn:Hlen.
  - apply Z.leb_le in Hlen.
    destruct (lookup_from_end hist 5) as [week Hweek]; [lia |].
    exists week. split; [| split].
    + apply (iloc_from_end hist 5); [lia | exact Hweek].
    + intros _. exact Hweek.
    + intros Hlt. lia.
  - apply Z.leb_gt in Hlen.
    destruct hist as [| x rest]; [congruence |].
    exists x. split; [apply iloc_first | split].
    + intros Hge. lia.
    + reflexivity.
Qed.

Lemma month_ago_returns (hist : list float) :
  hist <> [] -> exists month, month_ago hist = Return month /\ head hist = Some month.
Proof.
  intros Hne. destruct hist as [| x rest]; [congruence |].
  exists x. split; [apply iloc_first | reflexivity].
Qed.

(** Three closes: the day change against the second, the week and month
    changes against the first. *)
Example three_closes :
  let hist := [100; 105; 110]%float in
  current hist = Return 110%float
  /\ prev_day hist 110 = Return 105%float
  /\ week_ago hist = Return 100%float
  /\ month_ago hist = Return 100%float
  /\ Np.round2 ((110 - 105) / 105 * 100) = (476 / 100)%float
  /\ Np.round2 ((110 - 100) / 100 * 100) = 10%float.
Proof. repeat split; vm_compute; reflexivity. Qed.

(** ** One turn of a price-history loop *)

Lemma stock_turn_normalized (history : history_provider)
    (results : list record) (i : instrument) :
  exists r, stock_turn history results i = results ++ [r] /\ normalized history i r.
Proof.
  unfold stock_turn.
  destruct (history (symbol i)) as [hist | e] eqn:Hfetch; cbn [mbind exc_bind].
  - destruct hist as [| x rest] eqn:Hhist; cbn [empty].
    + eexists. split; [reflexivity | now apply normalized_empty].
    + rewrite <- Hhist in *.
      assert (Hne : hist <> []) by (subst hist; discriminate).
      destruct (current_returns hist Hne) as (cur & _ & Hcur).
      destruct (prev_day_returns hist cur Hne) as (prev & Hprev & _).
      destruct (week_ago_returns hist Hne) as (week & Hweek & _).
      destruct (month_ago_returns hist Hne) as (month & Hmonth & _).
      rewrite Hcur. cbn [mbind exc_bind]. rewrite Hprev, Hweek, Hmonth.
      exists (populated_record i cur prev week month). split; [reflexivity |].
      now apply (normalized_populated history i hist).
  - eexists. split; [reflexivity | now apply normalized_raised].
Qed.

(** The three loop bodies are one and the same function. *)
Lemma turns_agree : bond_turn = stock_turn /\ gold_turn = stock_turn.
Proof. split; reflexivity. Qed.

Lemma fold_turn_normalized (history : history_provider)
    (turn : list record -> instrument -> list record) :
  (forall results i, exists r, turn results i = results ++ [r] /\ normalized history i r) ->
  forall config results,
    exists rs, fold_left turn config results = results ++ rs
      /\ Forall2 (normalized history) config rs.
Proof.
  intros Hturn config. induction config as [| i config IH]; intros results.
  - exists []. split; [now rewrite app_nil_r | constructor].
  - destruct (Hturn results i) as (r & Hr & Hnorm).
    destruct (IH (results ++ [r])) as (rs & Hrs & Hall).
    exists (r :: rs). split.
    + cbn [fold_left]. rewrite Hr, Hrs, <- app_assoc. reflexivity.
    + now constructor.
Qed.

Lemma batch_normalized key op :
  yf_batch key op ->
  forall (p : portfolio) (history : history_provider),
    exists rs, op p history = [(key, TRecords rs)]
      /\ records key (op p history) = rs
      /\ Forall2 (normalized history) (configured p key) rs.
Proof.
  intros Hop p history.
  assert (Hfold : forall config, exists rs,
            fold_left (stock_turn history) config [] = rs
            /\ Forall2 (normalized history) config rs).
  { intros config.
    destruct (fold_turn_normalized history (stock_turn history)
                (stock_turn_normalized history) config []) as (rs & Hrs & Hall).
    exists rs. split; [exact Hrs | exact Hall]. }
  destruct turns_agree as [Hbond Hgold].
  destruct Hop.
  - destruct (Hfold (configured p "stocks")) as (rs & Hrs & Hall).
    exists rs. unfold get_stock_prices. rewrite Hrs. now repeat split.
  - destruct (Hfold (configured p "bonds")) as (rs & Hrs & Hall).
    exists rs. unfold get_bond_prices. rewrite Hbond, Hrs. now repeat split.
  - destruct (Hfold (configured p "gold")) as (rs & Hrs & Hall).
    exists rs. unfold get_gold_prices. rewrite Hgold, Hrs. now repeat split.
Qed.

(** ** The exchange-rate path *)

Lemma fx_populated (history : history_provider) (hist : list float) :
  history "USDKRW=X" = Return hist ->
  hist <> [] ->
  exists cur prev week month,
    current hist = Return cur
    /\ prev_day hist cur = Return prev
    /\ week_ago hist = Return week
    /\ month_ago hist = Return month
    /\ get_exchange_rate history = fx_record cur prev week month.
Proof.
  intros Hfetch Hne.
  destruct (current_returns hist Hne) as (cur & _ & Hcur).
  destruct (prev_day_returns hist cur Hne) as (prev & Hprev & _).
  destruct (week_ago_returns hist Hne) as (week & Hweek & _).
  destruct (month_ago_returns hist Hne) as (month & Hmonth & _).
  exists cur, prev, week, month. repeat (split; [assumption |]).
  unfold get_exchange_rate. rewrite Hfetch. cbn [mbind exc_bind].
  destruct hist; [congruence |]. cbn [empty].
  rewrite Hcur. cbn [mbind exc_bind]. rewrite Hprev, Hweek, Hmonth. reflexivity.
Qed.

Lemma fx_failed (history : history_provider) :
  (forall e, history "USDKRW=X" = Raise e ->
     get_exchange_rate history = [("error", PStr e)])
  /\ (history "USDKRW=X" = Return [] ->
     get_exchange_rate history = [("error", PStr fx_no_data)]).
Proof.
  split; [intros e Hfetch | intros Hfetch];
    unfold get_exchange_rate; rewrite Hfetch; reflexivity.
Qed.

(** ** The crypto loop *)

Lemma py_round_cases (round_float : float -> float) (v : pyval) :
  (roundable v = true /\ exists n, py_round round_float v = Return (PNum n))
  \/ (roundable v = false /\ exists e, py_round round_float v = Raise e).
Proof.
  destruct v as [s | [n | x] | | b | l | d]; cbn; eauto.
Qed.

Lemma dict_get_cases (coin_data : pyval) (k : string) (dflt : pyval) :
  (exists m, coin_data = PDict m /\ dict_get coin_data k dflt = Return (default dflt (m !! k)))
  \/ ((forall m, coin_data <> PDict m) /\ exists e, dict_get coin_data k dflt = Raise e).
Proof.
  destruct coin_data as [s | [n | x] | | b | l | m]; cbn;
    try (right; split; [discriminate | eauto]).
  left. eauto.
Qed.

(** A turn either appends the record of its coin or raises, and which of the
    two does not depend on the records gathered so far. *)
Lemma crypto_turn_cases (round_float : float -> float) (data : payload) (c : instrument) :
  (exists r, coin_built round_float data c r
     /\ forall results, crypto_turn round_float data results c = Return (results ++ [r]))
  \/ (exists e, forall results, crypto_turn round_float data results c = Raise e).
Proof.
  unfold crypto_turn.
  destruct (contains_key data (symbol c)) as [[|] | e] eqn:Hin; cbn [mbind exc_bind];
    [| left | right; now exists e].
  2: { eexists. split; [now apply coin_absent | reflexivity]. }
  destruct (subscript data (symbol c)) as [coin_data | e] eqn:Hsub; cbn [mbind exc_bind];
    [| right; now exists e].
  destruct (dict_get coin_data "usd" (PNum (NInt 0))) as [price | e] eqn:Husd;
    cbn [mbind exc_bind]; [| right; now exists e].
  destruct (dict_get coin_data "usd_24h_change" (PNum (NInt 0))) as [v24 | e] eqn:H24;
    cbn [mbind exc_bind]; [| right; now exists e].
  destruct (py_round round_float v24) as [c24 | e] eqn:Hr24;
    cbn [mbind exc_bind]; [| right; now exists e].
  destruct (dict_get coin_data "usd_7d_change" (PNum (NInt 0))) as [v7 | e] eqn:H7;
    cbn [mbind exc_bind]; [| right; now exists e].
  destruct (py_round round_float v7) as [c7 | e] eqn:Hr7;
    cbn [mbind exc_bind]; [| right; now exists e].
  left. eexists. split; [| reflexivity].
  now apply (coin_present round_float data c coin_data price v24 c24 v7 c7).
Qed.

Lemma for_each_cases (round_float : float -> float) (data : payload)
    (config : list instrument) :
  forall results,
    (exists rs, for_each (crypto_turn round_float data) config results = Return (results ++ rs)
       /\ Forall2 (coin_built round_float data) config rs)
    \/ (exists e, for_each (crypto_turn round_float data) config results = Raise e).
Proof.
  induction config as [| c config IH]; intros results.
  - left. exists []. split; [cbn; now rewrite app_nil_r | constructor].
  - cbn [for_each].
    destruct (crypto_turn_cases round_float data c) as [(r & Hbuilt & Hturn) | (e & Hturn)];
      rewrite Hturn; cbn [mbind exc_bind]; [| right; now exists e].
    destruct (IH (results ++ [r])) as [(rs & Hrs & Hall) | (e & He)].
    + left. exists (r :: rs). split; [| now constructor].
      rewrite Hrs, <- app_assoc. reflexivity.
    + right. now exists e.
Qed.

Lemma coin_built_symbol (round_float : float -> float) (data : payload)
    (c : instrument) (r : record) :
  coin_built round_float data c r -> get "symbol" r = Some (PStr c.(symbol)).
Proof. intros H. destruct H; reflexivity. Qed.

Lemma coin_built_shape (round_float : float -> float) (data : payload)
    (c : instrument) (r : record) :
  coin_built round_float data c r -> is_crypto_populated r \/ is_error r.
Proof.
  intros H. destruct H as [Hin | cd price v24 c24 v7 c7 Hin Hsub Husd H24 Hr24 H7 Hr7].
  - right. now exists (symbol c), no_data.
  - left.
    destruct (py_round_cases round_float v24) as [(_ & n24 & E24) | (_ & e & E24)];
      [| congruence].
    destruct (py_round_cases round_float v7) as [(_ & n7 & E7) | (_ & e & E7)];
      [| congruence].
    exists (symbol c), (name c), price, n24, n7. congruence.
Qed.

(** What [coin_built] says on a dict. *)
Lemma coin_built_dict (round_float : float -> float) (d : gmap string pyval)
    (c : instrument) (r : record) :
  coin_built round_float (PDict d) c r ->
  (d !! c.(symbol) = None /\ r = error_record c.(symbol) no_data)
  \/ (exists m c24 c7,
        d !! c.(symbol) = Some (PDict m)
        /\ py_round round_float (default (PNum (NInt 0)) (m !! "usd_24h_change")) = Return c24
        /\ py_round round_float (default (PNum (NInt 0)) (m !! "usd_7d_change")) = Return c7
        /\ r = [("symbol", PStr c.(symbol));
                ("name", PStr c.(name));
                ("price", default (PNum (NInt 0)) (m !! "usd"));
                ("change_24h_pct", c24);
                ("change_7d_pct", c7)]).
Proof.
  intros H. destruct H as [Hin | cd price v24 c24 v7 c7 Hin Hsub Husd H24 Hr24 H7 Hr7].
  - left. cbn in Hin. destruct (d !! symbol c); [discriminate | now split].
  - right. cbn in Hsub. unfold getitem in Hsub.
    destruct (d !! symbol c) as [cd' |] eqn:Hd; [| discriminate].
    injection Hsub as ->.
    destruct (dict_get_cases cd "usd" (PNum (NInt 0))) as [(m & -> & _) | (_ & e & E)];
      [| congruence].
    cbn in Husd, H24, H7.
    injection Husd as <-. injection H24 as <-. injection H7 as <-.
    exists m, c24, c7. now repeat split.
Qed.

Lemma coins_ok_for_each (round_float : float -> float) (d : gmap string pyval)
    (config : list instrument) :
  coins_ok d config = true ->
  forall results,
    exists rs, for_each (crypto_turn round_float (PDict d)) config results
               = Return (results ++ rs)
      /\ Forall2 (coin_built round_float (PDict d)) config rs.
Proof.
  induction config as [| c config IH]; intros Hok results.
  - exists []. split; [cbn; now rewrite app_nil_r | constructor].
  - cbn [coins_ok forallb] in Hok. apply andb_true_iff in Hok as [Hc Hrest].
    assert (Hturn : exists r, coin_built round_float (PDict d) c r
              /\ forall results, crypto_turn round_float (PDict d) results c
                                 = Return (results ++ [r])).
    { destruct (crypto_turn_cases round_float (PDict d) c) as [Hgood | (e & Hbad)];
        [exact Hgood | exfalso].
      specialize (Hbad []). unfold crypto_turn in Hbad. cbn [contains_key subscript] in Hbad.
      unfold getitem in Hbad.
      destruct (d !! symbol c) as [cd |]; cbn [mbind exc_bind] in Hbad; [| discriminate].
      destruct cd as [s | [n | x] | | b | l | m]; try discriminate Hc.
      cbn [entry_ok] in Hc. apply andb_true_iff in Hc as [H24 H7].
      cbn [dict_get mbind exc_bind] in Hbad.
      destruct (py_round_cases round_float (default (PNum (NInt 0)) (m !! "usd_24h_change")))
        as [(_ & n24 & E24) | (E24 & _)]; [| congruence].
      destruct (py_round_cases round_float (default (PNum (NInt 0)) (m !! "usd_7d_change")))
        as [(_ & n7 & E7) | (E7 & _)]; [| congruence].
      rewrite E24 in Hbad. cbn [mbind exc_bind] in Hbad.
      rewrite E7 in Hbad. discriminate Hbad. }
    destruct Hturn as (r & Hbuilt & Hturn).
    destruct (IH Hrest (results ++ [r])) as (rs & Hrs & Hall).
    exists (r :: rs). split; [| now constructor].
    cbn [for_each]. rewrite Hturn. cbn [mbind exc_bind].
    rewrite Hrs, <- app_assoc. reflexivity.
Qed.

Lemma bad_entry_raises (round_float : float -> float) (d : gmap string pyval)
    (c : instrument) (coin_data : pyval) :
  d !! c.(symbol) = Some coin_data ->
  entry_ok coin_data = false ->
  exists e, forall results, crypto_turn round_float (PDict d) results c = Raise e.
Proof.
  intros Hd Hbad.
  destruct (crypto_turn_cases round_float (PDict d) c) as [(r & Hbuilt & _) | Hraise];
    [exfalso | exact Hraise].
  destruct (coin_built_dict round_float d c r Hbuilt)
    as [[Hnone _] | (m & c24 & c7 & Hsome & E24 & E7 & _)]; [congruence |].
  assert (coin_data = PDict m) by congruence. subst coin_data.
  cbn [entry_ok] in Hbad. apply andb_false_iff in Hbad.
  destruct (py_round_cases round_float (default (PNum (NInt 0)) (m !! "usd_24h_change")))
    as [(R24 & _) | (_ & e & E)]; [| congruence].
  destruct (py_round_cases round_float (default (PNum (NInt 0)) (m !! "usd_7d_change")))
    as [(R7 & _) | (_ & e & E)]; [| congruence].
  destruct Hbad; congruence.
Qed.

Lemma coins_bad_for_each (round_float : float -> float) (d : gmap string pyval)
    (config : list instrument) :
  coins_ok d config = false ->
  forall results,
    exists e, for_each (crypto_turn round_float (PDict d)) config results = Raise e.
Proof.
  induction config as [| c config IH]; intros Hbad results; [discriminate Hbad |].
  cbn [coins_ok forallb] in Hbad. cbn [for_each].
  destruct (crypto_turn_cases round_float (PDict d) c) as [(r & _ & Hturn) | (e & Hturn)];
    rewrite Hturn; cbn [mbind exc_bind]; [| now exists e].
  apply andb_false_iff in Hbad as [Hc | Hrest].
  - destruct (d !! symbol c) as [cd |] eqn:Hd; [| discriminate Hc].
    destruct (bad_entry_raises round_float d c cd Hd Hc) as (e & He).
    specialize (Hturn []). rewrite He in Hturn. discriminate Hturn.
  - now apply IH.
Qed.

Lemma coin_built_symbols (round_float : float -> float) (data : payload)
    (config : list instrument) (rs : list record) :
  Forall2 (coin_built round_float data) config rs ->
  symbols rs = (fun c => Some (PStr c.(symbol))) <$> config.
Proof.
  unfold symbols. induction 1 as [| c r config rs Hbuilt _ IH]; [reflexivity |].
  cbn [fmap list_fmap]. rewrite (coin_built_symbol round_float data c r Hbuilt).
  f_equal. exact IH.
Qed.

Lemma coin_built_shapes (round_float : float -> float) (data : payload)
    (config : list instrument) (rs : list record) :
  Forall2 (coin_built round_float data) config rs ->
  Forall (fun r => is_crypto_populated r \/ is_error r) rs.
Proof.
  induction 1 as [| c r config rs Hbuilt _ IH]; constructor; [| exact IH].
  exact (coin_built_shape round_float data c r Hbuilt).
Qed.

Lemma crypto_answer_cases (round_float : float -> float) (p : portfolio)
    (coingecko : coingecko_provider) :
  (exists rs,
     get_crypto_prices round_float p coingecko = [("crypto", TRecords rs)]
     /\ (configured p "crypto" = []
         \/ exists data, coingecko (symbol <$> configured p "crypto") = Return data
               /\ Forall2 (coin_built round_float data) (configured p "crypto") rs)
     /\ length rs = length (configured p "crypto")
     /\ symbols rs = (fun c => Some (PStr c.(symbol))) <$> configured p "crypto"
     /\ Forall (fun r => is_crypto_populated r \/ is_error r) rs)
  \/ (exists e,
        configured p "crypto" <> []
        /\ get_crypto_prices round_float p coingecko
           = [("crypto", TRecords []); ("error", TStr e)]).
Proof.
  unfold get_crypto_prices.
  destruct (configured p "crypto") as [| c config] eqn:Hconfig.
  { left. exists []. repeat split; auto. }
  destruct (coingecko (symbol <$> c :: config)) as [data | e] eqn:Hfetch;
    cbn [fmap list_fmap mbind exc_bind];
    [| right; exists e; split; [discriminate | reflexivity]].
  destruct (for_each_cases round_float data (c :: config) [])
    as [(rs & Hrs & Hall) | (e & He)].
  - left. exists rs. rewrite Hrs. cbn [mbind exc_bind app].
    split; [reflexivity | split; [right; now exists data | split; [| split]]].
    + symmetry. exact (Forall2_length _ _ _ Hall).
    + exact (coin_built_symbols round_float data _ rs Hall).
    + exact (coin_built_shapes round_float data _ rs Hall).
  - right. exists e. rewrite He. split; [discriminate | reflexivity].
Qed.

Lemma crypto_answered (round_float : float -> float) (p : portfolio)
    (coingecko : coingecko_provider) (d : gmap string pyval) :
  coingecko (symbol <$> configured p "crypto") = Return (PDict d) ->
  coins_ok d (configured p "crypto") = true ->
  exists rs,
    get_crypto_prices round_float p coingecko = [("crypto", TRecords rs)]
    /\ Forall2 (coin_built round_float (PDict d)) (configured p "crypto") rs.
Proof.
  intros Hfetch Hok. unfold get_crypto_prices.
  destruct (coins_ok_for_each round_float d (configured p "crypto") Hok [])
    as (rs & Hrs & Hall).
  exists rs. split; [| exact Hall].
  destruct (configured p "crypto") as [| c config] eqn:Hconfig.
  - now inversion Hall.
  - cbn [fmap list_fmap] in *. rewrite Hfetch. cbn [mbind exc_bind].
    rewrite Hrs. reflexivity.
Qed.

Lemma crypto_dropped (round_float : float -> float) (p : portfolio)
    (coingecko : coingecko_provider) (d : gmap string pyval) :
  coingecko (symbol <$> configured p "crypto") = Return (PDict d) ->
  coins_ok d (configured p "crypto") = false ->
  exists e,
    get_crypto_prices round_float p coingecko = [("crypto", TRecords []); ("error", TStr e)].
Proof.
  intros Hfetch Hbad. unfold get_crypto_prices.
  destruct (coins_bad_for_each round_float d (configured p "crypto") Hbad []) as (e & He).
  exists e.
  destruct (configured p "crypto") as [| c config] eqn:Hconfig; [discriminate Hbad |].
  cbn [fmap list_fmap] in *. rewrite Hfetch. cbn [mbind exc_bind].
  rewrite He. reflexivity.
Qed.

Lemma crypto_unanswered (round_float : float -> float) (p : portfolio)
    (coingecko : coingecko_provider) (e : string) :
  configured p "crypto" <> [] ->
  coingecko (symbol <$> configured p "crypto") = Raise e ->
  get_crypto_prices round_float p coingecko = [("crypto", TRecords []); ("error", TStr e)].
Proof.
  intros Hne Hfetch. unfold get_crypto_prices.
  destruct (configured p "crypto") as [| c config] eqn:Hconfig; [congruence |].
  cbn [fmap list_fmap] in *. rewrite Hfetch. reflexivity.
Qed.

(** ** binary64 facts the change fields rest on *)

Module FloatFacts.

Lemma of_spec (x : float) (sf : spec_float) : Prim2SF x = sf -> x = SF2Prim sf.
Proof. intros <-. symmetry. apply SF2Prim_Prim2SF. Qed.

Lemma zero_spec (x : float) :
  is_zero x = true -> exists s, Prim2SF x = S754_zero s.
Proof.
  unfold is_zero. rewrite FloatAxioms.eqb_spec.
  change (Prim2SF zero) with (S754_zero false).
  destruct (Prim2SF x) as [s | s | | s m e]; cbn;
    try discriminate; try (destruct s; discriminate).
  intros _. now exists s.
Qed.

Lemma finite_spec (x : float) :
  is_finite x = true -> is_zero x = false ->
  exists s m e, Prim2SF x = S754_finite s m e.
Proof.
  unfold is_finite, is_nan, is_infinity, is_zero.
  rewrite !FloatAxioms.eqb_spec, abs_spec.
  change (Prim2SF zero) with (S754_zero false).
  change (Prim2SF infinity) with (S754_infinity false).
  destruct (Prim2SF x) as [s | s | | s m e]; cbn;
    try discriminate; try (destruct s; discriminate).
  intros _ _. now exists s, m, e.
Qed.

(** A zero reference: the quotient is a NaN or an infinity, and so is the
    rounded percentage. *)
Lemma zero_reference (cur ref : float) :
  is_zero ref = true -> is_finite (change_pct cur ref) = false.
Proof.
  intros Hzero. destruct (zero_spec ref Hzero) as [s Href].
  assert (Hq : exists b, Prim2SF ((cur - ref) / ref)%float = S754_nan
                      \/ Prim2SF ((cur - ref) / ref)%float = S754_infinity b).
  { rewrite div_spec, sub_spec, Href. unfold SF64div, SF64sub, SFdiv, SFsub.
    destruct (Prim2SF cur) as [sc | sc | | sc mc ec].
    - exists false. left. now destruct sc, s.
    - exists (xorb sc s). now right.
    - exists false. now left.
    - exists (xorb sc s). now right. }
  unfold change_pct.
  destruct Hq as [b [Hq | Hq]]; apply of_spec in Hq; rewrite Hq.
  - vm_compute. reflexivity.
  - destruct b; vm_compute; reflexivity.
Qed.

(** A single finite non-zero close compared with itself: the percentage is
    a zero (of either sign). *)
Lemma self_reference (x : float) :
  is_finite x = true -> is_zero x = false -> is_zero (change_pct x x) = true.
Proof.
  intros Hfin Hnz. destruct (finite_spec x Hfin Hnz) as (s & m & e & Hx).
  assert (Hd : Prim2SF (x - x)%float = S754_zero false).
  { rewrite sub_spec, Hx. unfold SF64sub, SFsub.
    rewrite Z.sub_diag. reflexivity. }
  assert (Hq : Prim2SF ((x - x) / x)%float = S754_zero s).
  { rewrite div_spec, Hd, Hx. reflexivity. }
  unfold change_pct. apply of_spec in Hq. rewrite Hq.
  destruct s; vm_compute; reflexivity.
Qed.

Lemma degenerate_spec (x : float) :
  is_finite x = false \/ is_zero x = true ->
  Prim2SF x = S754_nan
  \/ (exists s, Prim2SF x = S754_infinity s)
  \/ (exists s, Prim2SF x = S754_zero s).
Proof.
  unfold is_finite, is_nan, is_infinity, is_zero.
  rewrite !FloatAxioms.eqb_spec, abs_spec.
  change (Prim2SF zero) with (S754_zero false).
  change (Prim2SF infinity) with (S754_infinity false).
  destruct (Prim2SF x) as [s | s | | s m e]; eauto.
  unfold SFeqb, SFabs, SFcompare.
  rewrite Z.compare_refl. fold (Pos.compare m m). rewrite Pos.compare_refl.
  destruct s; cbn; intros [H | H]; discriminate H.
Qed.

(** A single close that is zero, infinite or NaN compared with itself:
    the percentage is a NaN. *)
Lemma self_reference_nan (x : float) :
  is_finite x = false \/ is_zero x = true -> is_nan (change_pct x x) = true.
Proof.
  intros Hx.
  assert (Hq : Prim2SF ((x - x) / x)%float = S754_nan).
  { rewrite div_spec, sub_spec. unfold SF64div, SF64sub, SFdiv, SFsub.
    destruct (degenerate_spec x Hx) as [-> | [[s ->] | [s ->]]];
      [reflexivity | now destruct s | now destruct s]. }
  unfold change_pct. apply of_spec in Hq. rewrite Hq.
  vm_compute. reflexivity.
Qed.

End FloatFacts.

(** ** From the loop to the answer *)

Lemma current_nonempty (hist : list float) (cur : float) :
  current hist = Return cur -> hist <> [].
Proof. intros Hcur ->. discriminate Hcur. Qed.

Lemma batch_lookup key op :
  yf_batch key op ->
  forall (p : portfolio) (history : history_provider) (k : nat) (i : instrument),
    configured p key !! k = Some i ->
    exists r, records key (op p history) !! k = Some r /\ normalized history i r.
Proof.
  intros Hop p history k i Hk.
  destruct (batch_normalized key op Hop p history) as (rs & _ & Hrec & Hall).
  rewrite Hrec. exact (Forall2_lookup_l _ _ _ k i Hall Hk).
Qed.

Lemma served_by_references (history : history_provider) (hist : list float)
    (cur prev week month : float) :
  current hist = Return cur ->
  prev_day hist cur = Return prev ->
  week_ago hist = Return week ->
  month_ago hist = Return month ->
  served history hist cur prev week month.
Proof.
  intros Hcur Hprev Hweek Hmonth.
  pose proof (current_nonempty hist cur Hcur) as Hne.
  split.
  - intros key op Hop p k i Hk Hfetch.
    destruct (batch_lookup key op Hop p history k i Hk) as (r & Hr & Hnorm).
    rewrite Hr. f_equal.
    inversion Hnorm as [e He | He | hist' cur' prev' week' month' He Hne' Hc Hp Hw Hm];
      congruence.
  - intros Hfetch.
    destruct (fx_populated history hist Hfetch Hne)
      as (cur' & prev' & week' & month' & Hc & Hp & Hw & Hm & Hrate).
    rewrite Hrate.
    assert (cur' = cur) by congruence. subst cur'.
    congruence.
Qed.

Lemma references_return (hist : list float) :
  hist <> [] ->
  exists cur prev week month,
    current hist = Return cur
    /\ prev_day hist cur = Return prev
    /\ week_ago hist = Return week
    /\ month_ago hist = Return month.
Proof.
  intros Hne.
  destruct (current_returns hist Hne) as (cur & _ & Hcur).
  destruct (prev_day_returns hist cur Hne) as (prev & Hprev & _).
  destruct (week_ago_returns hist Hne) as (week & Hweek & _).
  destruct (month_ago_returns hist Hne) as (month & Hmonth & _).
  now exists cur, prev, week, month.
Qed.

Lemma normalized_symbol (history : history_provider) (i : instrument) (r : record) :
  normalized history i r -> get "symbol" r = Some (PStr i.(symbol)).
Proof. intros Hnorm. destruct Hnorm; reflexivity. Qed.

Lemma normalized_shape (history : history_provider) (i : instrument) (r : record) :
  normalized history i r -> is_populated r \/ is_error r.
Proof.
  intros Hnorm. destruct Hnorm; [right | right | left].
  - now exists (symbol i), e.
  - now exists (symbol i), no_data.
  - unfold is_populated, populated_record. eauto 10.
Qed.

Lemma shape_keys (r : record) :
  (is_error r -> keys r = error_keys)
  /\ (is_populated r -> keys r = populated_keys)
  /\ (is_crypto_populated r -> keys r = crypto_keys).
Proof.
  split; [| split].
  - now intros (sym & msg & ->).
  - now intros (sym & nm & price & d & w & m & ->).
  - now intros (sym & nm & price & d24 & d7 & ->).
Qed.

Lemma shapes_apart (r : record) :
  (is_populated r -> ~ is_error r) /\ (is_crypto_populated r -> ~ is_error r).
Proof.
  destruct (shape_keys r) as (Herr & Hpop & Hcry).
  split; intros H1 H2; apply Herr in H2.
  - apply Hpop in H1. rewrite H1 in H2. discriminate.
  - apply Hcry in H1. rewrite H1 in H2. discriminate.
Qed.

Lemma float_neq (x y : float) : PrimFloat.eqb x y = false -> is_nan x = false -> x <> y.
Proof.
  intros Hxy Hx ->. unfold is_nan in Hx. rewrite Hxy in Hx. discriminate.
Qed.

(** ** The 1-week reference *)

(** C1, as the code has it.  For every fetched non-empty series the 1-week
    reference used by the price-history batches and by the exchange-rate tool
    is, with at least 5 elements, the fifth element counting from the end
    (index [len - 5], four positions before the last), and with fewer than 5
    elements the first element; the [change_1w_pct] field of the answer is
    computed from it. *)
Theorem week_reference_fifth_from_end (history : history_provider) (hist : list float) :
  hist <> [] ->
  exists cur prev week month,
    week_ago hist = Return week
    /\ ((5 <= length hist)%nat -> hist !! (length hist - 5)%nat = Some week)
    /\ ((length hist < 5)%nat -> head hist = Some week)
    /\ served history hist cur prev week month
    /\ (forall i, float_field "change_1w_pct" (populated_record i cur prev week month)
                  = Some (change_pct cur week))
    /\ float_field "change_1w_pct" (fx_record cur prev week month)
       = Some (change_pct cur week).
Proof.
  intros Hne.
  destruct (references_return hist Hne) as (cur & prev & week & month & Hc & Hp & Hw & Hm).
  destruct (week_ago_returns hist Hne) as (week' & Hw' & Hge & Hlt).
  assert (week' = week) by congruence. subst week'.
  exists cur, prev, week, month.
  split; [exact Hw | split; [exact Hge | split; [exact Hlt | split]]].
  - now apply served_by_references.
  - split; [intros i |]; reflexivity.
Qed.

Lemma week_reference_fifth_from_end_witness :
  exists cur prev week month,
    week_ago Demo.six = Return week
    /\ ((5 <= length Demo.six)%nat -> Demo.six !! (length Demo.six - 5)%nat = Some week)
    /\ ((length Demo.six < 5)%nat -> head Demo.six = Some week)
    /\ served Demo.market Demo.six cur prev week month
    /\ (forall i, float_field "change_1w_pct" (populated_record i cur prev week month)
                  = Some (change_pct cur week))
    /\ float_field "change_1w_pct" (fx_record cur prev week month)
       = Some (change_pct cur week).
Proof.
  apply (week_reference_fifth_from_end Demo.market Demo.six). discriminate.
Defined.

(** C1 as worded fails on six closes: the element 5 positions before the
    last is the first one, 90, while the code takes 91. *)
Lemma week_reference_not_five_before_last :
  (5 <= length Demo.six)%nat
  /\ Spec.week_reference Demo.six = Some 90%float
  /\ week_ago Demo.six = Return 91%float
  /\ 91%float <> 90%float.
Proof.
  repeat split; [cbn; lia |].
  apply float_neq; reflexivity.
Qed.

(** C5, as the code has it.  For the closes [90, 91, 92, 93, 94, 95] the
    1-week reference is the element at index 1 (91), as for any six closes,
    and [change_1w_pct] is [round((95 - 91) / 91 * 100, 2)]. *)
Theorem six_closes_week_change :
  (forall a b c d e f : float, week_ago [a; b; c; d; e; f] = Return b)
  /\ Demo.six !! 1%nat = Some 91%float
  /\ exists r,
       records "stocks" (get_stock_prices Demo.book Demo.market) = [r]
       /\ float_field "change_1w_pct" r = Some (Np.round2 ((95 - 91) / 91 * 100)%float).
Proof.
  split; [reflexivity | split; [reflexivity |]].
  eexists. split; vm_compute; reflexivity.
Qed.

(** C5 as worded fails: the field is not [round((95 - 90) / 90 * 100, 2)]. *)
Lemma six_closes_week_change_not_from_index_0 :
  exists r v,
    records "stocks" (get_stock_prices Demo.book Demo.market) = [r]
    /\ float_field "change_1w_pct" r = Some v
    /\ PrimFloat.eqb v (Np.round2 ((95 - 90) / 90 * 100)%float) = false.
Proof.
  do 2 eexists. repeat split; vm_compute; reflexivity.
Qed.

(** ** Zero references and one-element series *)

(** C4, as the code has it.  When the reference of some horizon is zero the
    operation still answers with the populated record (the batches) or the
    rate record (the exchange-rate tool), never with an error record, and the
    change of that horizon is a NaN or an infinity. *)
Theorem zero_reference_stays_populated (history : history_provider)
    (hist : list float) (cur prev week month ref : float) :
  current hist = Return cur ->
  prev_day hist cur = Return prev ->
  week_ago hist = Return week ->
  month_ago hist = Return month ->
  ref ∈ [prev; week; month] ->
  is_zero ref = true ->
  served history hist cur prev week month
  /\ is_finite (change_pct cur ref) = false.
Proof.
  intros Hc Hp Hw Hm _ Hzero. split.
  - now apply served_by_references.
  - now apply FloatFacts.zero_reference.
Qed.

Lemma zero_reference_stays_populated_witness :
  served Demo.market [0; 1]%float 1 0 0 0
  /\ is_finite (change_pct 1 0) = false.
Proof.
  apply (zero_reference_stays_populated Demo.market [0; 1]%float 1 0 0 0 0);
    try reflexivity.
  apply list_elem_of_here.
Defined.

(** C4 as worded fails on the closes [0, 1]: every reference is zero, and the
    answer is a populated record whose changes are infinite. *)
Lemma zero_reference_no_error_record :
  exists r,
    records "stocks" (get_stock_prices Demo.zero_book Demo.market) !! 1%nat = Some r
    /\ month_ago [0; 1]%float = Return 0%float
    /\ is_zero 0 = true
    /\ is_populated r
    /\ ~ is_error r
    /\ float_field "change_1m_pct" r = Some infinity.
Proof.
  eexists. split; [vm_compute; reflexivity |].
  assert (Hpop : is_populated
            (populated_record (Instrument "UP" "Zero then one") 1 0 0 0)).
  { unfold is_populated, populated_record. eauto 10. }
  repeat split; try (vm_compute; reflexivity).
  - exact Hpop.
  - apply (proj1 (shapes_apart _)). exact Hpop.
Qed.

(** C6, as the code has it.  Every non-empty series is answered with a full
    record: the four references are found and the three changes computed, no
    fault arises.  For a series of one close [x] all four references are [x];
    the three changes are then 0 when [x] is finite and not zero, and NaN
    when [x] is zero, infinite or NaN. *)
Theorem nonempty_series_full_record (history : history_provider) (hist : list float) :
  hist <> [] ->
  exists cur prev week month,
    served history hist cur prev week month
    /\ forall x, hist = [x] ->
         cur = x /\ prev = x /\ week = x /\ month = x
         /\ (is_finite x = true -> is_zero x = false -> is_zero (change_pct x x) = true)
         /\ (is_finite x = false \/ is_zero x = true -> is_nan (change_pct x x) = true).
Proof.
  intros Hne.
  destruct (references_return hist Hne) as (cur & prev & week & month & Hc & Hp & Hw & Hm).
  exists cur, prev, week, month. split.
  - now apply served_by_references.
  - intros x ->.
    assert (cur = x) by (cbv in Hc; congruence). subst cur.
    assert (prev = x) by (cbv in Hp; congruence).
    assert (week = x) by (cbv in Hw; congruence).
    assert (month = x) by (cbv in Hm; congruence).
    repeat split; try assumption.
    + apply FloatFacts.self_reference.
    + apply FloatFacts.self_reference_nan.
Qed.

Lemma nonempty_series_full_record_witness :
  exists cur prev week month,
    served Demo.market [100]%float cur prev week month
    /\ forall x, [100]%float = [x] ->
         cur = x /\ prev = x /\ week = x /\ month = x
         /\ (is_finite x = true -> is_zero x = false -> is_zero (change_pct x x) = true)
         /\ (is_finite x = false \/ is_zero x = true -> is_nan (change_pct x x) = true).
Proof.
  apply (nonempty_series_full_record Demo.market [100]%float). discriminate.
Defined.

(** C6 as worded fails on the one-element series [0]: a full record is
    returned, but its three changes are NaN, not 0. *)
Lemma single_zero_close_changes_nan :
  exists r,
    records "stocks" (get_stock_prices Demo.zero_book Demo.market) !! 0%nat = Some r
    /\ is_populated r
    /\ float_field "change_1d_pct" r = Some nan
    /\ float_field "change_1w_pct" r = Some nan
    /\ float_field "change_1m_pct" r = Some nan
    /\ is_zero nan = false.
Proof.
  eexists. split; [vm_compute; reflexivity |].
  split; [unfold is_populated; eauto 10 |].
  repeat split; vm_compute; reflexivity.
Qed.

(** ** Batches: length, order and shapes *)

Lemma normalized_symbols (history : history_provider)
    (config : list instrument) (rs : list record) :
  Forall2 (normalized history) config rs ->
  symbols rs = (fun i => Some (PStr i.(symbol))) <$> config.
Proof.
  induction 1 as [| i r config rs Hnorm _ IH]; [reflexivity |].
  unfold symbols in *. cbn [fmap list_fmap].
  rewrite (normalized_symbol history i r Hnorm). f_equal. exact IH.
Qed.

Lemma normalized_all_raised (history : history_provider)
    (config : list instrument) (rs : list record) :
  Forall2 (normalized history) config rs ->
  (forall i, i ∈ config -> exists e, history i.(symbol) = Raise e) ->
  Forall is_error rs.
Proof.
  induction 1 as [| i r config rs Hnorm _ IH]; intros Hdown; constructor.
  - destruct (Hdown i (list_elem_of_here _ _)) as [e He].
    destruct Hnorm as [e' _ | Hempty | hist ? ? ? ? Hhist]; [| congruence | congruence].
    now exists (symbol i), e'.
  - apply IH. intros j Hj. apply Hdown. now apply list_elem_of_further.
Qed.

(** C2, as the code has it.  The three price-history batches always answer
    with one record per configured instrument, in configuration order (none
    for an empty configuration), and with error records throughout when every
    fetch raises.  The crypto batch answers either with one record per
    configured coin, in configuration order, or with an empty list and a
    top-level [error].  It gives the full list for an empty configuration
    and whenever the request returns a dict in which every configured coin
    it has is a dict whose two change fields are missing or can be rounded;
    it gives the empty list and the error when the request raises and when
    the dict has a configured coin that is not such an entry. *)
Theorem batch_lists_follow_configuration :
  (forall key op, yf_batch key op ->
     forall (p : portfolio) (history : history_provider),
       exists rs,
         op p history = [(key, TRecords rs)]
         /\ length rs = length (configured p key)
         /\ symbols rs = (fun i => Some (PStr i.(symbol))) <$> configured p key
         /\ ((forall i, i ∈ configured p key -> exists e, history i.(symbol) = Raise e) ->
             Forall is_error rs))
  /\ (forall (round_float : float -> float) (p : portfolio) (coingecko : coingecko_provider),
        ((exists rs,
            get_crypto_prices round_float p coingecko = [("crypto", TRecords rs)]
            /\ length rs = length (configured p "crypto")
            /\ symbols rs = (fun c => Some (PStr c.(symbol))) <$> configured p "crypto")
         \/ (exists e,
               get_crypto_prices round_float p coingecko
               = [("crypto", TRecords []); ("error", TStr e)]))
        /\ (configured p "crypto" = [] ->
            get_crypto_prices round_float p coingecko = [("crypto", TRecords [])])
        /\ (forall d,
              coingecko (symbol <$> configured p "crypto") = Return (PDict d) ->
              coins_ok d (configured p "crypto") = true ->
              exists rs,
                get_crypto_prices round_float p coingecko = [("crypto", TRecords rs)]
                /\ length rs = length (configured p "crypto")
                /\ symbols rs = (fun c => Some (PStr c.(symbol))) <$> configured p "crypto")
        /\ (forall e,
              configured p "crypto" <> [] ->
              coingecko (symbol <$> configured p "crypto") = Raise e ->
              get_crypto_prices round_float p coingecko
              = [("crypto", TRecords []); ("error", TStr e)])
        /\ (forall d,
              coingecko (symbol <$> configured p "crypto") = Return (PDict d) ->
              coins_ok d (configured p "crypto") = false ->
              exists e,
                get_crypto_prices round_float p coingecko
                = [("crypto", TRecords []); ("error", TStr e)])).
Proof.
  split.
  - intros key op Hop p history.
    destruct (batch_normalized key op Hop p history) as (rs & Hanswer & _ & Hall).
    exists rs. split; [| split; [| split]].
    + exact Hanswer.
    + symmetry. exact (Forall2_length _ _ _ Hall).
    + now apply (normalized_symbols history).
    + now apply (normalized_all_raised history).
  - intros round_float p coingecko. split; [| split; [| split; [| split]]].
    + destruct (crypto_answer_cases round_float p coingecko)
        as [(rs & Hanswer & _ & Hlen & Hsym & _) | (e & _ & Hanswer)].
      * left. now exists rs.
      * right. now exists e.
    + intros Hnone. unfold get_crypto_prices. now rewrite Hnone.
    + intros d Hfetch Hok.
      destruct (crypto_answered round_float p coingecko d Hfetch Hok) as (rs & Hanswer & Hall).
      exists rs. split; [exact Hanswer | split].
      * symmetry. exact (Forall2_length _ _ _ Hall).
      * exact (coin_built_symbols round_float (PDict d) _ rs Hall).
    + intros e. apply crypto_unanswered.
    + intros d. apply crypto_dropped.
Qed.

(** C2 as worded fails for the crypto batch: three coins are configured, the
    request raises, and the list of the answer is empty. *)
Lemma crypto_outage_empties_the_list :
  length (configured Demo.book "crypto") = 3%nat
  /\ get_crypto_prices Demo.round_float Demo.book Demo.coingecko_down
     = [("crypto", TRecords []); ("error", TStr "Connection timed out")]
  /\ length (records "crypto"
       (get_crypto_prices Demo.round_float Demo.book Demo.coingecko_down)) = 0%nat.
Proof. repeat split; vm_compute; reflexivity. Qed.

(** C3, as the code has it.  Every element of a price-history batch is either
    a populated record {symbol, name, price, change_1d_pct, change_1w_pct,
    change_1m_pct} or an error record {symbol, error}.  Every element of the
    crypto batch is either a populated record {symbol, name, price,
    change_24h_pct, change_7d_pct} or such an error record.  No record has
    two of these shapes. *)
Theorem batch_elements_have_one_shape :
  (forall key op, yf_batch key op ->
     forall (p : portfolio) (history : history_provider),
       Forall (fun r => is_populated r \/ is_error r) (records key (op p history)))
  /\ (forall (round_float : float -> float) (p : portfolio) (coingecko : coingecko_provider),
        Forall (fun r => is_crypto_populated r \/ is_error r)
               (records "crypto" (get_crypto_prices round_float p coingecko)))
  /\ (forall r, (is_populated r -> ~ is_error r) /\ (is_crypto_populated r -> ~ is_error r)).
Proof.
  split; [| split; [| exact shapes_apart]].
  - intros key op Hop p history.
    destruct (batch_normalized key op Hop p history) as (rs & _ & -> & Hall).
    induction Hall as [| i r config rs Hnorm _ IH]; constructor; [| exact IH].
    exact (normalized_shape history i r Hnorm).
  - intros round_float p coingecko.
    destruct (crypto_answer_cases round_float p coingecko)
      as [(rs & -> & _ & _ & _ & Hshapes) | (e & _ & ->)].
    + exact Hshapes.
    + constructor.
Qed.

(** C3 as worded fails for the crypto batch: the record of a coin found in
    the payload has neither of the two shapes. *)
Lemma crypto_record_has_another_shape :
  exists r,
    records "crypto" (get_crypto_prices Demo.round_float Demo.book Demo.coingecko_up) !! 0%nat
    = Some r
    /\ is_crypto_populated r
    /\ ~ is_populated r
    /\ ~ is_error r.
Proof.
  eexists. split; [vm_compute; reflexivity | split; [| split]].
  - unfold is_crypto_populated. eauto 10.
  - intros Hpop. apply shape_keys in Hpop. discriminate Hpop.
  - intros Herr. apply shape_keys in Herr. discriminate Herr.
Qed.

(** ** The crypto payload *)

(** C7, as the code has it.  When the batched request returns a dict in
    which every configured coin it has is a dict whose two change fields are
    missing or can be rounded, the crypto batch answers with one record per
    configured coin, in configuration order: the error record
    [{symbol, error: no_data}] for exactly the ids the dict lacks, and a
    populated record carrying the coin's symbol and name for the ids it
    has. *)
Theorem crypto_absent_ids_are_errors (round_float : float -> float) (p : portfolio)
    (coingecko : coingecko_provider) (d : gmap string pyval) :
  coingecko (symbol <$> configured p "crypto") = Return (PDict d) ->
  coins_ok d (configured p "crypto") = true ->
  exists rs,
    get_crypto_prices round_float p coingecko = [("crypto", TRecords rs)]
    /\ Forall2
         (fun c r =>
            (d !! c.(symbol) = None -> r = error_record c.(symbol) no_data)
            /\ (is_Some (d !! c.(symbol)) ->
                is_crypto_populated r
                /\ get "symbol" r = Some (PStr c.(symbol))
                /\ get "name" r = Some (PStr c.(name))))
         (configured p "crypto") rs.
Proof.
  intros Hfetch Hok.
  destruct (crypto_answered round_float p coingecko d Hfetch Hok) as (rs & Hanswer & Hall).
  exists rs. split; [exact Hanswer |].
  eapply Forall2_impl; [exact Hall |].
  intros c r Hbuilt. cbn beta.
  pose proof (coin_built_shape round_float (PDict d) c r Hbuilt) as Hshape.
  destruct (coin_built_dict round_float d c r Hbuilt)
    as [[Hnone ->] | (m & c24 & c7 & Hsome & _ & _ & ->)].
  - split; [reflexivity |]. intros [cd Hcd]. congruence.
  - split; [congruence |]. intros _.
    destruct Hshape as [Hpop | Herr].
    + now repeat split.
    + destruct Herr as (sym & msg & Herr). discriminate Herr.
Qed.

Lemma crypto_absent_ids_are_errors_witness :
  exists rs,
    get_crypto_prices Demo.round_float Demo.book Demo.coingecko_up = [("crypto", TRecords rs)]
    /\ Forall2
         (fun c r =>
            (Demo.coin_table !! c.(symbol) = None -> r = error_record c.(symbol) no_data)
            /\ (is_Some (Demo.coin_table !! c.(symbol)) ->
                is_crypto_populated r
                /\ get "symbol" r = Some (PStr c.(symbol))
                /\ get "name" r = Some (PStr c.(name))))
         (configured Demo.book "crypto") rs.
Proof.
  apply (crypto_absent_ids_are_errors Demo.round_float Demo.book Demo.coingecko_up
           Demo.coin_table); vm_compute; reflexivity.
Defined.

(** C7 as worded fails on a payload that has bitcoin and ethereum, ethereum
    with a null 24h change: both ids are present, yet no populated record is
    produced, the answer is an empty list with a top-level error.  And where
    an id is absent (solana in [Demo.coins]), the message of its error record
    is the server's own text, not the words no data. *)
Lemma crypto_present_ids_without_records :
  is_Some (Sample.null_change !! "bitcoin")
  /\ is_Some (Sample.null_change !! "ethereum")
  /\ get_crypto_prices Demo.round_float Demo.book Sample.coingecko_null
     = [("crypto", TRecords []);
        ("error", TStr "type NoneType doesn't define __round__ method")]
  /\ records "crypto" (get_crypto_prices Demo.round_float Demo.book Sample.coingecko_null)
     = []
  /\ records "crypto" (get_crypto_prices Demo.round_float Demo.book Demo.coingecko_up)
       !! 2%nat
     = Some (error_record "solana" no_data)
  /\ no_data <> "no data".
Proof.
  split; [vm_compute; eauto | split; [vm_compute; eauto |]].
  split; [vm_compute; reflexivity | split; [vm_compute; reflexivity |]].
  split; [vm_compute; reflexivity | discriminate].
Qed.

(** C9, as the code has it.  When the batched request returns a dict in
    which every configured coin it has is a dict whose two change fields are
    missing or can be rounded, a configured coin that the dict has without
    the [usd] field gets a populated record with its symbol and name whose
    price is the integer 0; a change whose key is missing as well is the
    integer 0 too. *)
Theorem crypto_missing_price_is_zero (round_float : float -> float) (p : portfolio)
    (coingecko : coingecko_provider) (d : gmap string pyval)
    (k : nat) (c : instrument) (coin_data : gmap string pyval) :
  coingecko (symbol <$> configured p "crypto") = Return (PDict d) ->
  coins_ok d (configured p "crypto") = true ->
  configured p "crypto" !! k = Some c ->
  d !! c.(symbol) = Some (PDict coin_data) ->
  coin_data !! "usd" = None ->
  exists r,
    records "crypto" (get_crypto_prices round_float p coingecko) !! k = Some r
    /\ is_crypto_populated r
    /\ get "symbol" r = Some (PStr c.(symbol))
    /\ get "name" r = Some (PStr c.(name))
    /\ get "price" r = Some (PNum (NInt 0))
    /\ (coin_data !! "usd_24h_change" = None ->
        get "change_24h_pct" r = Some (PNum (NInt 0)))
    /\ (coin_data !! "usd_7d_change" = None ->
        get "change_7d_pct" r = Some (PNum (NInt 0))).
Proof.
  intros Hfetch Hok Hk Hpresent Husd.
  destruct (crypto_answered round_float p coingecko d Hfetch Hok) as (rs & -> & Hall).
  change (records "crypto" [("crypto", TRecords ?l)]) with l.
  destruct (Forall2_lookup_l _ _ _ k c Hall Hk) as (r & Hr & Hbuilt).
  exists r. split; [exact Hr |].
  pose proof (coin_built_shape round_float (PDict d) c r Hbuilt) as Hshape.
  destruct (coin_built_dict round_float d c r Hbuilt)
    as [[Hnone _] | (m & c24 & c7 & Hsome & E24 & E7 & ->)]; [congruence |].
  assert (m = coin_data) by congruence. subst m.
  split.
  { destruct Hshape as [Hpop | (sym & msg & Herr)]; [exact Hpop | discriminate Herr]. }
  split; [reflexivity | split; [reflexivity | split; [| split]]].
  - cbn. now rewrite Husd.
  - intros H24. rewrite H24 in E24. cbn in E24. injection E24 as <-. reflexivity.
  - intros H7. rewrite H7 in E7. cbn in E7. injection E7 as <-. reflexivity.
Qed.

Lemma crypto_missing_price_is_zero_witness :
  exists r,
    records "crypto" (get_crypto_prices Demo.round_float Demo.book Demo.coingecko_up) !! 1%nat
    = Some r
    /\ is_crypto_populated r
    /\ get "symbol" r = Some (PStr "ethereum")
    /\ get "name" r = Some (PStr "Ethereum")
    /\ get "price" r = Some (PNum (NInt 0))
    /\ (Demo.ethereum !! "usd_24h_change" = None ->
        get "change_24h_pct" r = Some (PNum (NInt 0)))
    /\ (Demo.ethereum !! "usd_7d_change" = None ->
        get "change_7d_pct" r = Some (PNum (NInt 0))).
Proof.
  apply (crypto_missing_price_is_zero Demo.round_float Demo.book Demo.coingecko_up
           Demo.coin_table 1 (Instrument "ethereum" "Ethereum") Demo.ethereum);
    vm_compute; reflexivity.
Defined.

(** C9 as worded fails on a payload whose ethereum entry has no [usd] and a
    null 24h change: the entry is present and lacks [usd], yet the answer
    holds no record at all, neither for ethereum nor for any other coin. *)
Lemma crypto_missing_price_without_record :
  Sample.null_change !! "ethereum" = Some (PDict Sample.null_ethereum)
  /\ Sample.null_ethereum !! "usd" = None
  /\ configured Demo.book "crypto" !! 1%nat = Some (Instrument "ethereum" "Ethereum")
  /\ records "crypto" (get_crypto_prices Demo.round_float Demo.book Sample.coingecko_null)
       !! 1%nat
     = None
  /\ get "error" (get_crypto_prices Demo.round_float Demo.book Sample.coingecko_null)
     = Some (TStr "type NoneType doesn't define __round__ method").
Proof. repeat split; vm_compute; reflexivity. Qed.

(** ** The fear-greed reading *)

(** C8.  The classification is defined on every integer score, in
    particular on 0..100, and falls in exactly one bucket: extreme fear up to
    25, fear from 26 to 45, neutral from 46 to 55, greed from 56 to 75, and
    extreme greed from 76 on; 25, 45, 55 and 75 belong to the lower bucket. *)
Theorem fear_greed_buckets (score : Z) :
  (_interpret_fear_greed score = extreme_fear <-> score <= 25)
  /\ (_interpret_fear_greed score = fear <-> 25 < score <= 45)
  /\ (_interpret_fear_greed score = neutral <-> 45 < score <= 55)
  /\ (_interpret_fear_greed score = greed <-> 55 < score <= 75)
  /\ (_interpret_fear_greed score = extreme_greed <-> 75 < score)
  /\ _interpret_fear_greed 25 = extreme_fear
  /\ _interpret_fear_greed 45 = fear
  /\ _interpret_fear_greed 55 = neutral
  /\ _interpret_fear_greed 75 = greed.
Proof.
  unfold _interpret_fear_greed.
  destruct (score <=? 25) eqn:H25; [apply Z.leb_le in H25 | apply Z.leb_gt in H25];
  [| destruct (score <=? 45) eqn:H45; [apply Z.leb_le in H45 | apply Z.leb_gt in H45];
   [| destruct (score <=? 55) eqn:H55; [apply Z.leb_le in H55 | apply Z.leb_gt in H55];
    [| destruct (score <=? 75) eqn:H75; [apply Z.leb_le in H75 | apply Z.leb_gt in H75]]]];
  repeat match goal with
         | |- _ /\ _ => split
         | |- _ <-> _ => split; intros ?
         end;
  try reflexivity; try lia; try discriminate.
Qed.

(** ** Stocks, bonds and gold *)

(** C10.  Given the same configured list and the same price histories,
    [get_stock_prices], [get_bond_prices] and [get_gold_prices] compute the
    same list of records; they differ in the key they read the list from and
    the key they put the records under. *)
Theorem price_batches_agree (history : history_provider) (config : list instrument)
    (p_stocks p_bonds p_gold : portfolio) :
  configured p_stocks "stocks" = config ->
  configured p_bonds "bonds" = config ->
  configured p_gold "gold" = config ->
  exists rs,
    get_stock_prices p_stocks history = [("stocks", TRecords rs)]
    /\ get_bond_prices p_bonds history = [("bonds", TRecords rs)]
    /\ get_gold_prices p_gold history = [("gold", TRecords rs)]
    /\ Forall2 (normalized history) config rs.
Proof.
  intros Hstocks Hbonds Hgold.
  destruct (batch_normalized "stocks" get_stock_prices yf_stocks p_stocks history)
    as (rs & Hanswer & _ & Hall).
  exists rs. rewrite Hstocks in Hall.
  split; [exact Hanswer | split; [| split; [| exact Hall]]].
  - unfold get_bond_prices, get_stock_prices in *.
    destruct turns_agree as [-> _]. rewrite Hbonds, <- Hstocks.
    now injection Hanswer as ->.
  - unfold get_gold_prices, get_stock_prices in *.
    destruct turns_agree as [_ ->]. rewrite Hgold, <- Hstocks.
    now injection Hanswer as ->.
Qed.

Lemma price_batches_agree_witness :
  exists rs,
    get_stock_prices Demo.book Demo.market = [("stocks", TRecords rs)]
    /\ get_bond_prices Demo.book Demo.market = [("bonds", TRecords rs)]
    /\ get_gold_prices Demo.book Demo.market = [("gold", TRecords rs)]
    /\ Forall2 (normalized Demo.market) [Instrument "SIX" "Six closes"] rs.
Proof.
  apply (price_batches_agree Demo.market [Instrument "SIX" "Six closes"]
           Demo.book Demo.book Demo.book); vm_compute; reflexivity.
Defined.

(** * Further properties of the servers *)

(** ** One instrument inside a price-history batch *)

Lemma normalized_functional (h1 h2 : history_provider) (i : instrument) (r1 r2 : record) :
  h1 i.(symbol) = h2 i.(symbol) ->
  normalized h1 i r1 -> normalized h2 i r2 -> r1 = r2.
Proof.
  intros Hsame Hn1 Hn2.
  destruct Hn1 as [e1 He1 | He1 | hist1 c1 d1 w1 m1 He1 Hne1 Hc1 Hd1 Hw1 Hm1];
    destruct Hn2 as [e2 He2 | He2 | hist2 c2 d2 w2 m2 He2 Hne2 Hc2 Hd2 Hw2 Hm2];
    congruence.
Qed.

Lemma normalized_error_iff (history : history_provider) (i : instrument) (r : record) :
  normalized history i r ->
  is_error r <->
  (exists e, history i.(symbol) = Raise e) \/ history i.(symbol) = Return [].
Proof.
  intros Hnorm. split.
  - intros Herr.
    destruct Hnorm as [e He | He | hist cur prev week month He Hne Hc Hp Hw Hm].
    + left. now exists e.
    + now right.
    + exfalso. apply (proj1 (shapes_apart (populated_record i cur prev week month))).
      * unfold is_populated, populated_record. eauto 10.
      * exact Herr.
  - intros Hfail.
    destruct Hnorm as [e He | He | hist cur prev week month He Hne Hc Hp Hw Hm].
    + now exists (symbol i), e.
    + now exists (symbol i), no_data.
    + destruct Hfail as [[e Hraise] | Hempty]; congruence.
Qed.

(** X1.  In a price-history batch the record of an instrument is an error
    record exactly when its fetch raised or came back empty; it then carries
    the instrument's symbol and, as its message, the text of the exception or
    the fixed no-data text. *)
Theorem batch_item_outcome key op (p : portfolio) (history : history_provider)
    (k : nat) (i : instrument) :
  yf_batch key op ->
  configured p key !! k = Some i ->
  exists r,
    records key (op p history) !! k = Some r
    /\ (forall e, history i.(symbol) = Raise e -> r = error_record i.(symbol) e)
    /\ (history i.(symbol) = Return [] -> r = error_record i.(symbol) no_data)
    /\ (is_error r <->
        (exists e, history i.(symbol) = Raise e) \/ history i.(symbol) = Return []).
Proof.
  intros Hop Hk.
  destruct (batch_lookup key op Hop p history k i Hk) as (r & Hr & Hnorm).
  exists r. split; [exact Hr | split; [| split]].
  - intros e He. apply (normalized_functional history history i); auto.
    now apply normalized_raised.
  - intros He. apply (normalized_functional history history i); auto.
    now apply normalized_empty.
  - now apply normalized_error_iff.
Qed.

Lemma batch_item_outcome_witness :
  let i := Instrument "GONE" "Delisted" in
  exists r,
    records "stocks" (get_stock_prices Sample.book Demo.market) !! 1%nat = Some r
    /\ (forall e, Demo.market i.(symbol) = Raise e -> r = error_record i.(symbol) e)
    /\ (Demo.market i.(symbol) = Return [] -> r = error_record i.(symbol) no_data)
    /\ (is_error r <->
        (exists e, Demo.market i.(symbol) = Raise e) \/ Demo.market i.(symbol) = Return []).
Proof.
  apply (batch_item_outcome "stocks" get_stock_prices Sample.book Demo.market 1
           (Instrument "GONE" "Delisted")).
  - exact yf_stocks.
  - vm_compute. reflexivity.
Defined.

(** X2.  The record of an instrument depends on the fetch of that instrument
    only: two providers that agree on its symbol give it the same record,
    whatever they answer (or raise) for the other instruments of the batch. *)
Theorem batch_item_isolated key op (p : portfolio) (h1 h2 : history_provider)
    (k : nat) (i : instrument) :
  yf_batch key op ->
  configured p key !! k = Some i ->
  h1 i.(symbol) = h2 i.(symbol) ->
  records key (op p h1) !! k = records key (op p h2) !! k.
Proof.
  intros Hop Hk Hsame.
  destruct (batch_lookup key op Hop p h1 k i Hk) as (r1 & Hr1 & Hn1).
  destruct (batch_lookup key op Hop p h2 k i Hk) as (r2 & Hr2 & Hn2).
  rewrite Hr1, Hr2. f_equal. exact (normalized_functional h1 h2 i r1 r2 Hsame Hn1 Hn2).
Qed.

Lemma batch_item_isolated_witness :
  records "stocks" (get_stock_prices Demo.zero_book Demo.market) !! 0%nat
  = records "stocks" (get_stock_prices Demo.zero_book Sample.thin_market) !! 0%nat.
Proof.
  apply (batch_item_isolated "stocks" get_stock_prices Demo.zero_book
           Demo.market Sample.thin_market 0 (Instrument "FLAT" "One zero close")).
  - exact yf_stocks.
  - vm_compute. reflexivity.
  - vm_compute. reflexivity.
Defined.

Lemma normalized_list_functional (history : history_provider)
    (config : list instrument) (rs rs' : list record) :
  Forall2 (normalized history) config rs ->
  Forall2 (normalized history) config rs' ->
  rs = rs'.
Proof.
  intros Hall. revert rs'.
  induction Hall as [| i r config rs Hnorm _ IH]; intros rs' Hall'.
  - now inversion Hall'.
  - inversion Hall' as [| i' r' config' rs'' Hnorm' Hrest]; subst.
    f_equal.
    + exact (normalized_functional history history i r r' eq_refl Hnorm Hnorm').
    + now apply IH.
Qed.

(** X3.  A batch over a configuration that is the concatenation of two lists
    is the batch over the first followed by the batch over the second: what a
    turn appends does not depend on the records gathered before it. *)
Theorem batch_of_appended_configuration key op (p p1 p2 : portfolio)
    (history : history_provider) :
  yf_batch key op ->
  configured p key = configured p1 key ++ configured p2 key ->
  records key (op p history)
  = records key (op p1 history) ++ records key (op p2 history).
Proof.
  intros Hop Happ.
  destruct (batch_normalized key op Hop p history) as (rs & _ & -> & Hall).
  destruct (batch_normalized key op Hop p1 history) as (rs1 & _ & -> & Hall1).
  destruct (batch_normalized key op Hop p2 history) as (rs2 & _ & -> & Hall2).
  rewrite Happ in Hall.
  apply (normalized_list_functional history (configured p1 key ++ configured p2 key));
    [exact Hall | now apply Forall2_app].
Qed.

Lemma batch_of_appended_configuration_witness :
  records "stocks" (get_stock_prices Sample.book Demo.market)
  = records "stocks" (get_stock_prices Demo.book Demo.market)
    ++ records "stocks" (get_stock_prices Sample.gone_book Demo.market).
Proof.
  apply (batch_of_appended_configuration "stocks" get_stock_prices
           Sample.book Demo.book Sample.gone_book Demo.market).
  - exact yf_stocks.
  - vm_compute. reflexivity.
Defined.

(** ** The other references *)

(** X4.  For every fetched non-empty series the price is the last close
    rounded, the 1-day reference is the second-to-last close (the last close
    itself when the series has one element) and the 1-month reference is the
    first close; the price-history batches and the exchange-rate tool compute
    [price] or [rate], [change_1d_pct] and [change_1m_pct] from them. *)
Theorem day_and_month_references (history : history_provider) (hist : list float) :
  hist <> [] ->
  exists cur prev week month,
    last hist = Some cur
    /\ ((1 < length hist)%nat -> hist !! (length hist - 2)%nat = Some prev)
    /\ ((length hist <= 1)%nat -> prev = cur)
    /\ head hist = Some month
    /\ served history hist cur prev week month
    /\ (forall i,
          float_field "price" (populated_record i cur prev week month)
          = Some (Np.round2 cur)
          /\ float_field "change_1d_pct" (populated_record i cur prev week month)
             = Some (change_pct cur prev)
          /\ float_field "change_1m_pct" (populated_record i cur prev week month)
             = Some (change_pct cur month))
    /\ float_field "rate" (fx_record cur prev week month) = Some (Np.round2 cur)
    /\ float_field "change_1d_pct" (fx_record cur prev week month)
       = Some (change_pct cur prev)
    /\ float_field "change_1m_pct" (fx_record cur prev week month)
       = Some (change_pct cur month).
Proof.
  intros Hne.
  destruct (current_returns hist Hne) as (cur & Hlast & Hcur).
  destruct (prev_day_returns hist cur Hne) as (prev & Hprev & Hlong & Hshort).
  destruct (week_ago_returns hist Hne) as (week & Hweek & _).
  destruct (month_ago_returns hist Hne) as (month & Hmonth & Hhead).
  exists cur, prev, week, month.
  split; [exact Hlast | split; [exact Hlong | split; [exact Hshort | split; [exact Hhead |]]]].
  split; [now apply served_by_references |].
  split; [intros i |]; repeat split.
Qed.

Lemma day_and_month_references_witness :
  exists cur prev week month,
    last Demo.six = Some cur
    /\ ((1 < length Demo.six)%nat -> Demo.six !! (length Demo.six - 2)%nat = Some prev)
    /\ ((length Demo.six <= 1)%nat -> prev = cur)
    /\ head Demo.six = Some month
    /\ served Demo.market Demo.six cur prev week month
    /\ (forall i,
          float_field "price" (populated_record i cur prev week month)
          = Some (Np.round2 cur)
          /\ float_field "change_1d_pct" (populated_record i cur prev week month)
             = Some (change_pct cur prev)
          /\ float_field "change_1m_pct" (populated_record i cur prev week month)
             = Some (change_pct cur month))
    /\ float_field "rate" (fx_record cur prev week month) = Some (Np.round2 cur)
    /\ float_field "change_1d_pct" (fx_record cur prev week month)
       = Some (change_pct cur prev)
    /\ float_field "change_1m_pct" (fx_record cur prev week month)
       = Some (change_pct cur month).
Proof.
  apply (day_and_month_references Demo.market Demo.six). discriminate.
Defined.

(** ** The exchange-rate tool *)

(** X5.  [get_exchange_rate] answers with the single-key record
    [{error: ...}] exactly when the fetch of USDKRW=X raised (the message is
    the text of the exception) or came back empty (the message is the fixed
    no-data text of the tool); in every other case it answers with the five
    keys pair, rate, change_1d_pct, change_1w_pct, change_1m_pct. *)
Theorem exchange_rate_answers (history : history_provider) :
  (forall e, history "USDKRW=X" = Raise e ->
     get_exchange_rate history = [("error", PStr e)])
  /\ (history "USDKRW=X" = Return [] ->
      get_exchange_rate history = [("error", PStr fx_no_data)])
  /\ (forall hist, history "USDKRW=X" = Return hist -> hist <> [] ->
        keys (get_exchange_rate history)
        = ["pair"; "rate"; "change_1d_pct"; "change_1w_pct"; "change_1m_pct"]
        /\ get "pair" (get_exchange_rate history) = Some (PStr "USD/KRW"))
  /\ (keys (get_exchange_rate history) = ["error"] <->
      (exists e, history "USDKRW=X" = Raise e) \/ history "USDKRW=X" = Return []).
Proof.
  destruct (fx_failed history) as [Hraised Hempty].
  assert (Hfull : forall hist, history "USDKRW=X" = Return hist -> hist <> [] ->
            keys (get_exchange_rate history)
            = ["pair"; "rate"; "change_1d_pct"; "change_1w_pct"; "change_1m_pct"]
            /\ get "pair" (get_exchange_rate history) = Some (PStr "USD/KRW")).
  { intros hist Hfetch Hne.
    destruct (fx_populated history hist Hfetch Hne)
      as (cur & prev & week & month & _ & _ & _ & _ & ->).
    split; reflexivity. }
  split; [exact Hraised | split; [exact Hempty | split; [exact Hfull |]]].
  split.
  - intros Hkeys.
    destruct (history "USDKRW=X") as [hist | e] eqn:Hfetch; [| left; now exists e].
    destruct hist as [| x rest]; [now right |].
    destruct (Hfull (x :: rest) eq_refl) as [Hk _]; [discriminate |].
    rewrite Hk in Hkeys. discriminate Hkeys.
  - intros [[e He] | He].
    + now rewrite (Hraised e He).
    + now rewrite (Hempty He).
Qed.

(** ** Coins the payload has *)

(** X6.  When the batched request returns a dict in which every configured
    coin it has is a dict whose two change fields are missing or can be
    rounded, the record of a configured coin that the dict has carries the
    [usd] value as it came, whatever it is and not rounded; a change that
    came as an integer stays that integer, and one that came as a float is
    rounded. *)
Theorem crypto_present_coin_fields (round_float : float -> float) (p : portfolio)
    (coingecko : coingecko_provider) (d : gmap string pyval)
    (k : nat) (c : instrument) (coin_data : gmap string pyval) :
  coingecko (symbol <$> configured p "crypto") = Return (PDict d) ->
  coins_ok d (configured p "crypto") = true ->
  configured p "crypto" !! k = Some c ->
  d !! c.(symbol) = Some (PDict coin_data) ->
  exists r,
    records "crypto" (get_crypto_prices round_float p coingecko) !! k = Some r
    /\ get "symbol" r = Some (PStr c.(symbol))
    /\ get "name" r = Some (PStr c.(name))
    /\ (forall v, coin_data !! "usd" = Some v -> get "price" r = Some v)
    /\ (forall n, coin_data !! "usd_24h_change" = Some (PNum (NInt n)) ->
          get "change_24h_pct" r = Some (PNum (NInt n)))
    /\ (forall x, coin_data !! "usd_24h_change" = Some (PNum (NFloat x)) ->
          get "change_24h_pct" r = Some (PNum (NFloat (round_float x))))
    /\ (forall n, coin_data !! "usd_7d_change" = Some (PNum (NInt n)) ->
          get "change_7d_pct" r = Some (PNum (NInt n)))
    /\ (forall x, coin_data !! "usd_7d_change" = Some (PNum (NFloat x)) ->
          get "change_7d_pct" r = Some (PNum (NFloat (round_float x)))).
Proof.
  intros Hfetch Hok Hk Hpresent.
  destruct (crypto_answered round_float p coingecko d Hfetch Hok) as (rs & -> & Hall).
  change (records "crypto" [("crypto", TRecords ?l)]) with l.
  destruct (Forall2_lookup_l _ _ _ k c Hall Hk) as (r & Hr & Hbuilt).
  exists r. split; [exact Hr |].
  destruct (coin_built_dict round_float d c r Hbuilt)
    as [[Hnone _] | (m & c24 & c7 & Hsome & E24 & E7 & ->)]; [congruence |].
  assert (m = coin_data) by congruence. subst m.
  split; [reflexivity | split; [reflexivity |]].
  split; [intros v Hv; cbn; now rewrite Hv |].
  split; [intros n Hn; rewrite Hn in E24; cbn in E24; injection E24 as <-; reflexivity |].
  split; [intros x Hx; rewrite Hx in E24; cbn in E24; injection E24 as <-; reflexivity |].
  split; [intros n Hn; rewrite Hn in E7; cbn in E7; injection E7 as <-; reflexivity |].
  intros x Hx; rewrite Hx in E7; cbn in E7; injection E7 as <-; reflexivity.
Qed.

Lemma crypto_present_coin_fields_witness :
  exists r,
    records "crypto" (get_crypto_prices Demo.round_float Demo.book Demo.coingecko_up) !! 0%nat
    = Some r
    /\ get "symbol" r = Some (PStr "bitcoin")
    /\ get "name" r = Some (PStr "Bitcoin")
    /\ (forall v, Demo.bitcoin !! "usd" = Some v -> get "price" r = Some v)
    /\ (forall n, Demo.bitcoin !! "usd_24h_change" = Some (PNum (NInt n)) ->
          get "change_24h_pct" r = Some (PNum (NInt n)))
    /\ (forall x, Demo.bitcoin !! "usd_24h_change" = Some (PNum (NFloat x)) ->
          get "change_24h_pct" r = Some (PNum (NFloat (Demo.round_float x))))
    /\ (forall n, Demo.bitcoin !! "usd_7d_change" = Some (PNum (NInt n)) ->
          get "change_7d_pct" r = Some (PNum (NInt n)))
    /\ (forall x, Demo.bitcoin !! "usd_7d_change" = Some (PNum (NFloat x)) ->
          get "change_7d_pct" r = Some (PNum (NFloat (Demo.round_float x)))).
Proof.
  apply (crypto_present_coin_fields Demo.round_float Demo.book Demo.coingecko_up
           Demo.coin_table 0 (Instrument "bitcoin" "Bitcoin") Demo.bitcoin);
    vm_compute; reflexivity.
Defined.

(** X7.  As long as both answers come with their records, the record of a
    configured coin depends on the payload's entry for that coin only: two
    dicts in which every configured coin they have is a dict whose two change
    fields are missing or can be rounded, and which agree on the coin's id,
    give it the same record, whatever they hold for the other coins. *)
Theorem crypto_item_isolated (round_float : float -> float) (p : portfolio)
    (cg1 cg2 : coingecko_provider) (d1 d2 : gmap string pyval)
    (k : nat) (c : instrument) :
  cg1 (symbol <$> configured p "crypto") = Return (PDict d1) ->
  cg2 (symbol <$> configured p "crypto") = Return (PDict d2) ->
  coins_ok d1 (configured p "crypto") = true ->
  coins_ok d2 (configured p "crypto") = true ->
  configured p "crypto" !! k = Some c ->
  d1 !! c.(symbol) = d2 !! c.(symbol) ->
  records "crypto" (get_crypto_prices round_float p cg1) !! k
  = records "crypto" (get_crypto_prices round_float p cg2) !! k.
Proof.
  intros Hfetch1 Hfetch2 Hok1 Hok2 Hk Hsame.
  destruct (crypto_answered round_float p cg1 d1 Hfetch1 Hok1) as (rs1 & -> & Hall1).
  destruct (crypto_answered round_float p cg2 d2 Hfetch2 Hok2) as (rs2 & -> & Hall2).
  change (records "crypto" [("crypto", TRecords ?l)]) with l.
  destruct (Forall2_lookup_l _ _ _ k c Hall1 Hk) as (r1 & -> & Hbuilt1).
  destruct (Forall2_lookup_l _ _ _ k c Hall2 Hk) as (r2 & -> & Hbuilt2).
  f_equal.
  destruct (coin_built_dict round_float d1 c r1 Hbuilt1)
    as [[Hnone1 ->] | (m1 & a24 & a7 & Hsome1 & A24 & A7 & ->)];
    destruct (coin_built_dict round_float d2 c r2 Hbuilt2)
      as [[Hnone2 ->] | (m2 & b24 & b7 & Hsome2 & B24 & B7 & ->)];
    congruence.
Qed.

Lemma crypto_item_isolated_witness :
  records "crypto"
    (get_crypto_prices Demo.round_float Demo.book Demo.coingecko_up) !! 0%nat
  = records "crypto"
      (get_crypto_prices Demo.round_float Demo.book
         (fun _ => Return (PDict Sample.only_bitcoin)))
      !! 0%nat.
Proof.
  apply (crypto_item_isolated Demo.round_float Demo.book
           Demo.coingecko_up (fun _ => Return (PDict Sample.only_bitcoin))
           Demo.coin_table Sample.only_bitcoin 0 (Instrument "bitcoin" "Bitcoin"));
    vm_compute; reflexivity.
Defined.

(** ** The fear-greed index *)

Lemma guarded_reading (convert : pyval -> exc Z) (readings : list reading)
    (n : nat) (score : Z) :
  (if Z.of_nat n <? Z.of_nat (length readings)
   then r ← getindex readings n; v ← getitem r "value"; py_int convert v
   else Return score)
  = value_or convert score (readings !! n).
Proof.
  unfold getindex, value_or.
  destruct (readings !! n) as [r |] eqn:Hn.
  - apply lookup_lt_Some in Hn.
    assert (Hlt : (Z.of_nat n <? Z.of_nat (length readings)) = true)
      by (apply Z.ltb_lt; lia).
    now rewrite Hlt.
  - apply lookup_ge_None in Hn.
    assert (Hge : (Z.of_nat n <? Z.of_nat (length readings)) = false)
      by (apply Z.ltb_ge; lia).
    now rewrite Hge.
Qed.

Lemma fear_greed_unfolded (convert : pyval -> exc Z) (alternative_me : exc fng_payload)
    (data : fng_payload) (readings : list reading) (today : reading) (score : Z) :
  alternative_me = Return data ->
  data !! "data" = Some readings ->
  readings !! 0%nat = Some today ->
  py_int convert (default (PNum (NInt 0)) (today !! "value")) = Return score ->
  get_fear_greed_index convert alternative_me
  = match value_or convert score (readings !! 1%nat) with
    | Raise e => [("error", PStr e)]
    | Return yesterday =>
        match value_or convert score (readings !! 6%nat) with
        | Raise e => [("error", PStr e)]
        | Return week =>
            snapshot score (default (PStr "unknown") (today !! "value_classification"))
                     yesterday week
        end
    end.
Proof.
  intros -> Hdata Htoday Hscore. unfold get_fear_greed_index.
  cbn [mbind exc_bind]. rewrite Hdata. cbn [default from_option id].
  pose proof (guarded_reading convert readings 1 score) as H1.
  pose proof (guarded_reading convert readings 6 score) as H6.
  change (Z.of_nat 1) with 1 in H1. change (Z.of_nat 6) with 6 in H6.
  destruct readings as [| first rest]; [discriminate Htoday |].
  assert (Hfirst : getindex (first :: rest) 0 = Return today)
    by (unfold getindex; now rewrite Htoday).
  rewrite Hfirst. cbn [mbind exc_bind].
  rewrite Hscore. cbn [mbind exc_bind].
  rewrite H1. destruct (value_or convert score ((first :: rest) !! 1%nat)); [| reflexivity].
  cbn [mbind exc_bind].
  rewrite H6. destruct (value_or convert score ((first :: rest) !! 6%nat)); reflexivity.
Qed.

(** X8.  Whatever the provider and the conversion do, [get_fear_greed_index]
    answers either with [{error: ...}] or with a snapshot of the five keys
    score, rating, yesterday, one_week_ago, interpretation, whose
    interpretation is the classification of the very score it reports. *)
Theorem fear_greed_answer_shape (convert : pyval -> exc Z)
    (alternative_me : exc fng_payload) :
  (exists msg, get_fear_greed_index convert alternative_me = [("error", PStr msg)])
  \/ (exists score rating yesterday week,
        get_fear_greed_index convert alternative_me = snapshot score rating yesterday week
        /\ get "score" (get_fear_greed_index convert alternative_me)
           = Some (PNum (NInt score))
        /\ get "interpretation" (get_fear_greed_index convert alternative_me)
           = Some (PStr (_interpret_fear_greed score))).
Proof.
  destruct alternative_me as [data | e]; [| left; now exists e].
  destruct (data !! "data") as [readings |] eqn:Hdata.
  2: { left. exists no_data. unfold get_fear_greed_index.
       cbn [mbind exc_bind]. now rewrite Hdata. }
  destruct readings as [| today rest] eqn:Hreadings.
  { left. exists no_data. unfold get_fear_greed_index.
    cbn [mbind exc_bind]. now rewrite Hdata. }
  destruct (py_int convert (default (PNum (NInt 0)) (today !! "value")))
    as [score | e] eqn:Hscore.
  - rewrite (fear_greed_unfolded convert (Return data) data (today :: rest) today score
               eq_refl Hdata eq_refl Hscore).
    destruct (value_or convert score ((today :: rest) !! 1%nat)) as [y | e];
      [| left; now exists e].
    destruct (value_or convert score ((today :: rest) !! 6%nat)) as [w | e];
      [| left; now exists e].
    right. exists score, (default (PStr "unknown") (today !! "value_classification")), y, w.
    now repeat split.
  - left. exists e. unfold get_fear_greed_index.
    cbn [mbind exc_bind]. rewrite Hdata. cbn [default from_option id getindex lookup list_lookup].
    cbn [mbind exc_bind]. now rewrite Hscore.
Qed.

(** X9.  The error answers of [get_fear_greed_index]: the text of the
    exception when the request raises; the fixed no-data text when the
    payload has no [data] key or an empty list under it; the text of the
    conversion error when today's value does not convert; and, although
    today's reading is read with a default, the text of the key error
    ['value'] when the second reading has no [value]. *)
Theorem fear_greed_errors (convert : pyval -> exc Z) :
  (forall e, get_fear_greed_index convert (Raise e) = [("error", PStr e)])
  /\ (forall data, data !! "data" = None \/ data !! "data" = Some [] ->
        get_fear_greed_index convert (Return data) = [("error", PStr no_data)])
  /\ (forall data today rest e,
        data !! "data" = Some (today :: rest) ->
        py_int convert (default (PNum (NInt 0)) (today !! "value")) = Raise e ->
        get_fear_greed_index convert (Return data) = [("error", PStr e)])
  /\ (forall data today second rest score,
        data !! "data" = Some (today :: second :: rest) ->
        py_int convert (default (PNum (NInt 0)) (today !! "value")) = Return score ->
        second !! "value" = None ->
        get_fear_greed_index convert (Return data) = [("error", PStr "'value'")]).
Proof.
  split; [reflexivity | split; [| split]].
  - intros data [Hnone | Hnil]; unfold get_fear_greed_index;
      cbn [mbind exc_bind]; [rewrite Hnone | rewrite Hnil]; reflexivity.
  - intros data today rest e Hdata Hscore. unfold get_fear_greed_index.
    cbn [mbind exc_bind]. rewrite Hdata. cbn [default from_option id getindex lookup list_lookup].
    cbn [mbind exc_bind]. now rewrite Hscore.
  - intros data today second rest score Hdata Hscore Hsecond.
    rewrite (fear_greed_unfolded convert (Return data) data (today :: second :: rest)
               today score eq_refl Hdata eq_refl Hscore).
    cbn [lookup list_lookup value_or]. unfold getitem. rewrite Hsecond. reflexivity.
Qed.

(** X10.  The short-history policy of the index.  With a single reading
    yesterday and one_week_ago are today's score; with a second reading
    yesterday is its value, and one_week_ago is still today's score as long as
    there are at most six readings; with a seventh reading one_week_ago is
    its value. *)
Theorem fear_greed_short_history (convert : pyval -> exc Z) (data : fng_payload)
    (readings : list reading) (today : reading) (score : Z) :
  data !! "data" = Some readings ->
  readings !! 0%nat = Some today ->
  py_int convert (default (PNum (NInt 0)) (today !! "value")) = Return score ->
  let rating := default (PStr "unknown") (today !! "value_classification") in
  (length readings = 1%nat ->
     get_fear_greed_index convert (Return data) = snapshot score rating score score)
  /\ (forall second v y,
        readings !! 1%nat = Some second ->
        second !! "value" = Some v -> py_int convert v = Return y ->
        (length readings <= 6)%nat ->
        get_fear_greed_index convert (Return data) = snapshot score rating y score)
  /\ (forall second v y seventh v' w,
        readings !! 1%nat = Some second ->
        second !! "value" = Some v -> py_int convert v = Return y ->
        readings !! 6%nat = Some seventh ->
        seventh !! "value" = Some v' -> py_int convert v' = Return w ->
        get_fear_greed_index convert (Return data) = snapshot score rating y w).
Proof.
  intros Hdata Htoday Hscore rating.
  rewrite (fear_greed_unfolded convert (Return data) data readings today score
             eq_refl Hdata Htoday Hscore).
  split; [| split].
  - intros Hlen.
    rewrite (proj2 (lookup_ge_None readings 1)) by lia.
    rewrite (proj2 (lookup_ge_None readings 6)) by lia.
    reflexivity.
  - intros second v y Hsecond Hv Hy Hlen.
    rewrite Hsecond. rewrite (proj2 (lookup_ge_None readings 6)) by lia.
    unfold value_or, getitem. rewrite Hv. cbn [mbind exc_bind]. now rewrite Hy.
  - intros second v y seventh v' w Hsecond Hv Hy Hseventh Hv' Hw.
    rewrite Hsecond, Hseventh.
    unfold value_or, getitem. rewrite Hv, Hv'. cbn [mbind exc_bind]. now rewrite Hy, Hw.
Qed.

Lemma fear_greed_short_history_witness :
  let rating := default (PStr "unknown") (Sample.today !! "value_classification") in
  (length [Sample.today; Sample.day_before] = 1%nat ->
     get_fear_greed_index Sample.convert (Return Sample.two_readings)
     = snapshot 25 rating 25 25)
  /\ (forall second v y,
        [Sample.today; Sample.day_before] !! 1%nat = Some second ->
        second !! "value" = Some v -> py_int Sample.convert v = Return y ->
        (length [Sample.today; Sample.day_before] <= 6)%nat ->
        get_fear_greed_index Sample.convert (Return Sample.two_readings)
        = snapshot 25 rating y 25)
  /\ (forall second v y seventh v' w,
        [Sample.today; Sample.day_before] !! 1%nat = Some second ->
        second !! "value" = Some v -> py_int Sample.convert v = Return y ->
        [Sample.today; Sample.day_before] !! 6%nat = Some seventh ->
        seventh !! "value" = Some v' -> py_int Sample.convert v' = Return w ->
        get_fear_greed_index Sample.convert (Return Sample.two_readings)
        = snapshot 25 rating y w).
Proof.
  apply (fear_greed_short_history Sample.convert Sample.two_readings
           [Sample.today; Sample.day_before] Sample.today 25);
    vm_compute; reflexivity.
Defined.

(** X11.  A first reading without [value] is scored 0 and so classified as
    extreme fear: every answer that is not an error then reports score 0
    with the extreme-fear text, and with that reading alone the answer is the
    snapshot with 0 for score, yesterday and one_week_ago. *)
Theorem fear_greed_unvalued_today (convert : pyval -> exc Z) (data : fng_payload)
    (readings : list reading) (today : reading) :
  data !! "data" = Some readings ->
  readings !! 0%nat = Some today ->
  today !! "value" = None ->
  let rating := default (PStr "unknown") (today !! "value_classification") in
  ((exists msg, get_fear_greed_index convert (Return data) = [("error", PStr msg)])
   \/ (exists yesterday week,
         get_fear_greed_index convert (Return data) = snapshot 0 rating yesterday week
         /\ get "interpretation" (get_fear_greed_index convert (Return data))
            = Some (PStr extreme_fear)))
  /\ (length readings = 1%nat ->
      get_fear_greed_index convert (Return data) = snapshot 0 rating 0 0).
Proof.
  intros Hdata Htoday Hvalue rating.
  assert (Hscore : py_int convert (default (PNum (NInt 0)) (today !! "value")) = Return 0)
    by now rewrite Hvalue.
  rewrite (fear_greed_unfolded convert (Return data) data readings today 0
             eq_refl Hdata Htoday Hscore).
  split.
  - destruct (value_or convert 0 (readings !! 1%nat)) as [y | e]; [| left; now exists e].
    destruct (value_or convert 0 (readings !! 6%nat)) as [w | e]; [| left; now exists e].
    right. exists y, w. now split.
  - intros Hlen.
    rewrite (proj2 (lookup_ge_None readings 1)) by lia.
    rewrite (proj2 (lookup_ge_None readings 6)) by lia.
    reflexivity.
Qed.

Lemma fear_greed_unvalued_today_witness :
  let rating := default (PStr "unknown") (Sample.unvalued !! "value_classification") in
  ((exists msg, get_fear_greed_index Sample.convert (Return Sample.first_unvalued)
                = [("error", PStr msg)])
   \/ (exists yesterday week,
         get_fear_greed_index Sample.convert (Return Sample.first_unvalued)
         = snapshot 0 rating yesterday week
         /\ get "interpretation"
              (get_fear_greed_index Sample.convert (Return Sample.first_unvalued))
            = Some (PStr extreme_fear)))
  /\ (length [Sample.unvalued] = 1%nat ->
      get_fear_greed_index Sample.convert (Return Sample.first_unvalued)
      = snapshot 0 rating 0 0).
Proof.
  apply (fear_greed_unvalued_today Sample.convert Sample.first_unvalued
           [Sample.unvalued] Sample.unvalued);
    vm_compute; reflexivity.
Defined.

(** ** The system prompt *)

Lemma append_assoc (a b c : string) :
  String.append (String.append a b) c = String.append a (String.append b c).
Proof.
  induction a as [| ch a IH]; [reflexivity |].
  change (String ch (String.append (String.append a b) c)
          = String ch (String.append a (String.append b c))).
  now rewrite IH.
Qed.

Lemma append_empty (a : string) : String.append a "" = a.
Proof.
  induction a as [| ch a IH]; [reflexivity |].
  change (String ch (String.append a "") = String ch a).
  now rewrite IH.
Qed.

Lemma occurs_refl (x : string) : occurs x x.
Proof. exists "", "". cbn. now rewrite append_empty. Qed.

Lemma occurs_prefixed (x a s : string) : occurs x s -> occurs x (String.append a s).
Proof.
  intros (before & after & ->). exists (String.append a before), after.
  now rewrite append_assoc.
Qed.

Lemma occurs_suffixed (x s b : string) : occurs x s -> occurs x (String.append s b).
Proof.
  intros (before & after & ->). exists before, (String.append after b).
  now rewrite !append_assoc.
Qed.

Lemma occurs_trans (x y s : string) : occurs x y -> occurs y s -> occurs x s.
Proof.
  intros (b1 & a1 & ->) (b2 & a2 & ->).
  exists (String.append b2 b1), (String.append a1 a2).
  now rewrite !append_assoc.
Qed.

Lemma occurs_concat (sep x : string) (l : list string) :
  x ∈ l -> occurs x (String.concat sep l).
Proof.
  induction l as [| y l IH]; intros Hin; [now apply elem_of_nil in Hin |].
  apply elem_of_cons in Hin.
  destruct l as [| z l].
  - destruct Hin as [-> | Hin]; [apply occurs_refl | now apply elem_of_nil in Hin].
  - change (String.concat sep (y :: z :: l))
      with (String.append y (String.append sep (String.concat sep (z :: l)))).
    destruct Hin as [-> | Hin].
    + apply occurs_suffixed, occurs_refl.
    + now apply occurs_prefixed, occurs_prefixed, IH.
Qed.

Lemma entry_parts (i : instrument) :
  occurs i.(symbol) (entry i) /\ occurs i.(name) (entry i).
Proof.
  unfold entry. split.
  - apply occurs_suffixed, occurs_refl.
  - apply occurs_prefixed, occurs_prefixed, occurs_suffixed, occurs_refl.
Qed.

(** X12.  The system prompt names the whole configured universe: for each of
    the four asset classes, every configured instrument occurs in the prompt
    as [symbol (name)], and so do its symbol and its name. *)
Theorem prompt_names_every_instrument (p : portfolio) (key : string) (i : instrument) :
  key ∈ ["stocks"; "crypto"; "bonds"; "gold"] ->
  i ∈ configured p key ->
  occurs (entry i) (build_system_prompt p)
  /\ occurs i.(symbol) (build_system_prompt p)
  /\ occurs i.(name) (build_system_prompt p).
Proof.
  intros Hkey Hin.
  assert (Hentry : occurs (entry i) (build_system_prompt p)).
  { assert (Hlisted : occurs (entry i) (String.concat ", " (entry <$> configured p key))).
    { apply occurs_concat. now apply list_elem_of_fmap_2. }
    unfold build_system_prompt.
    repeat (apply elem_of_cons in Hkey; destruct Hkey as [-> | Hkey]);
      [| | | | now apply elem_of_nil in Hkey].
    - apply occurs_prefixed, occurs_suffixed, Hlisted.
    - do 3 apply occurs_prefixed. apply occurs_suffixed, Hlisted.
    - do 5 apply occurs_prefixed. apply occurs_suffixed, Hlisted.
    - do 7 apply occurs_prefixed. apply occurs_suffixed, Hlisted. }
  destruct (entry_parts i) as [Hsym Hname].
  split; [exact Hentry | split].
  - exact (occurs_trans _ _ _ Hsym Hentry).
  - exact (occurs_trans _ _ _ Hname Hentry).
Qed.

Lemma prompt_names_every_instrument_witness :
  let i := Instrument "GONE" "Delisted" in
  occurs (entry i) (build_system_prompt Sample.book)
  /\ occurs i.(symbol) (build_system_prompt Sample.book)
  /\ occurs i.(name) (build_system_prompt Sample.book).
Proof.
  apply (prompt_names_every_instrument Sample.book "gold" (Instrument "GONE" "Delisted")).
  - do 3 apply list_elem_of_further. apply list_elem_of_here.
  - vm_compute. apply list_elem_of_here.
Defined.

(** ** The exchange rate against the batches *)

(** X13.  The exchange-rate tool computes as the price-history batches do:
    when the pair's series is the series fetched for an instrument, the rate
    is that instrument's price and the three changes are its three changes. *)
Theorem exchange_rate_agrees_with_batches key op (p : portfolio)
    (history : history_provider) (k : nat) (i : instrument) (hist : list float) :
  yf_batch key op ->
  configured p key !! k = Some i ->
  history i.(symbol) = Return hist ->
  history "USDKRW=X" = Return hist ->
  hist <> [] ->
  exists r rate d w m,
    records key (op p history) !! k = Some r
    /\ float_field "rate" (get_exchange_rate history) = Some rate
    /\ float_field "price" r = Some rate
    /\ float_field "change_1d_pct" (get_exchange_rate history) = Some d
    /\ float_field "change_1d_pct" r = Some d
    /\ float_field "change_1w_pct" (get_exchange_rate history) = Some w
    /\ float_field "change_1w_pct" r = Some w
    /\ float_field "change_1m_pct" (get_exchange_rate history) = Some m
    /\ float_field "change_1m_pct" r = Some m.
Proof.
  intros Hop Hk Hfetch Hfx Hne.
  destruct (references_return hist Hne) as (cur & prev & week & month & Hc & Hp & Hw & Hm).
  destruct (served_by_references history hist cur prev week month Hc Hp Hw Hm)
    as [Hbatch Hrate].
  exists (populated_record i cur prev week month), (Np.round2 cur),
    (change_pct cur prev), (change_pct cur week), (change_pct cur month).
  rewrite (Hrate Hfx).
  split; [exact (Hbatch key op Hop p k i Hk Hfetch) | now repeat split].
Qed.

Lemma exchange_rate_agrees_with_batches_witness :
  exists r rate d w m,
    records "bonds" (get_bond_prices Demo.book Demo.market) !! 0%nat = Some r
    /\ float_field "rate" (get_exchange_rate Demo.market) = Some rate
    /\ float_field "price" r = Some rate
    /\ float_field "change_1d_pct" (get_exchange_rate Demo.market) = Some d
    /\ float_field "change_1d_pct" r = Some d
    /\ float_field "change_1w_pct" (get_exchange_rate Demo.market) = Some w
    /\ float_field "change_1w_pct" r = Some w
    /\ float_field "change_1m_pct" (get_exchange_rate Demo.market) = Some m
    /\ float_field "change_1m_pct" r = Some m.
Proof.
  apply (exchange_rate_agrees_with_batches "bonds" get_bond_prices Demo.book Demo.market
           0 (Instrument "SIX" "Six closes") Demo.six).
  - exact yf_bonds.
  - vm_compute. reflexivity.
  - reflexivity.
  - reflexivity.
  - discriminate.
Defined.
